(** * ShopBot chat front end: query routing, submit handler, reply formatting

    A shallow embedding of [frontend/src/components/ChatInterface.js]
    (the submit handler [handleSubmit], its intent rules and
    [formatGeminiResponse]) and of the disabled test of the Send button in
    [frontend/src/components/InputArea.js], followed by a model of the
    matcher's fallback chain as the design document describes it.

    JavaScript strings are sequences of UTF-16 code units; React state is a
    record threaded through the handler; [axios.post], the clock and the
    console are explicit parts of the world the handler runs in. *)

From Stdlib Require Import List NArith ZArith QArith Bool Lia.
From Stdlib Require Import Ascii String DecimalString.
Import ListNotations.

(* ================================================================== *)
(** ** JavaScript strings *)
(* ================================================================== *)

Module JS.

(** A string value: its UTF-16 code units, in order. *)
Definition jsstring := list N.

(** String literals of the source that use Basic Latin only. *)
Definition u16 (s : string) : jsstring :=
  List.map N_of_ascii (list_ascii_of_string s).

(** [s.startsWith(p)] *)
Fixpoint startsWith (s p : jsstring) {struct p} : bool :=
  match p with
  | [] => true
  | c :: p' =>
      match s with
      | [] => false
      | d :: s' => N.eqb d c && startsWith s' p'
      end
  end.

(** [s.includes(p)]: [p] occurs in [s] at some index. *)
Fixpoint includes (s p : jsstring) {struct s} : bool :=
  startsWith s p ||
  match s with
  | [] => false
  | _ :: s' => includes s' p
  end.

(** LineTerminator code points of ECMAScript. *)
Definition isLineTerminator (c : N) : bool :=
  N.eqb c 10 || N.eqb c 13 || N.eqb c 8232 || N.eqb c 8233.

(** WhiteSpace code points of ECMAScript: TAB, VT, FF, ZWNBSP and the
    space separators (category Zs). *)
Definition isWhiteSpace (c : N) : bool :=
  N.eqb c 9 || N.eqb c 11 || N.eqb c 12 || N.eqb c 65279 ||
  N.eqb c 32 || N.eqb c 160 || N.eqb c 5760 ||
  (N.leb 8192 c && N.leb c 8202) ||
  N.eqb c 8239 || N.eqb c 8287 || N.eqb c 12288.

(** What [trim] strips. *)
Definition isTrimmed (c : N) : bool := isWhiteSpace c || isLineTerminator c.

Fixpoint trimStart (s : jsstring) : jsstring :=
  match s with
  | [] => []
  | c :: s' => if isTrimmed c then trimStart s' else s
  end.

Definition trimEnd (s : jsstring) : jsstring := rev (trimStart (rev s)).

(** [s.trim()] *)
Definition trim (s : jsstring) : jsstring := trimEnd (trimStart s).

(** [!s] for a string [s]: only the empty string is falsy. *)
Definition falsy (s : jsstring) : bool :=
  match s with [] => true | _ :: _ => false end.

(** [String(n)] for a non-negative integer (an array length). *)
Definition numberToString (n : nat) : jsstring :=
  u16 (NilZero.string_of_uint (Nat.to_uint n)).

(** [toLowerCase] on Basic Latin: A-Z go to a-z.  The built-in agrees with
    this on every string whose code units are all below 128. *)
Definition asciiToLowerCase (s : jsstring) : jsstring :=
  List.map (fun c => if N.leb 65 c && N.leb c 90 then (c + 32)%N else c) s.

(** The values a string-typed field of a JSON reply can hold when read
    from JavaScript: absent, [null], or a string. *)
Inductive jsvalue :=
| JUndefined
| JNull
| JString (s : jsstring).

End JS.

Import JS.

(* ================================================================== *)
(** ** Intent rules of [handleSubmit] *)
(* ================================================================== *)

(** The three branches of the rule chain; the names are the section
    comments of the source and the [lastFeature] tags 'image', 'text',
    'chat'. *)
Inductive Intent :=
| image_description
| text_recommendation
| general_conversation.

Section IntentRules.

(** [String.prototype.toLowerCase] is the runtime's Unicode case mapping;
    the rules only look at its result, so it stays a parameter. *)
Variable toLowerCase : jsstring -> jsstring.

(** First [if] of the chain. *)
Definition imageRule (query : jsstring) : bool :=
  let queryLower := toLowerCase query in
  includes queryLower (u16 "image") ||
  includes queryLower (u16 "picture") ||
  includes queryLower (u16 "photo") ||
  includes queryLower (u16 "looks like") ||
  startsWith queryLower (u16 "a ").

(** The [else if]. *)
Definition textRule (query : jsstring) : bool :=
  let queryLower := toLowerCase query in
  includes queryLower (u16 "recommend") ||
  includes queryLower (u16 "search") ||
  includes queryLower (u16 "find") ||
  includes queryLower (u16 "show me") ||
  includes queryLower (u16 "looking for").

(** if / else if / else *)
Definition classify (query : jsstring) : Intent :=
  if imageRule query then image_description
  else if textRule query then text_recommendation
  else general_conversation.

End IntentRules.

(* ================================================================== *)
(** ** [formatGeminiResponse] *)
(* ================================================================== *)

(** [text.replace(/^\* /gm, '• ')]: with the [m] flag [^] matches at the
    start of the input and after every line terminator; [lineStart] says
    whether the scan is at such a position. After a replaced match the
    previous unit is the space, never a line start. *)
Fixpoint replaceLeadingStar (lineStart : bool) (s : jsstring) : jsstring :=
  match s with
  | [] => []
  | c :: s' =>
      match s' with
      | d :: s'' =>
          if lineStart && N.eqb c 42 && N.eqb d 32
          then 8226%N :: 32%N :: replaceLeadingStar false s''
          else c :: replaceLeadingStar (isLineTerminator c) s'
      | [] => c :: replaceLeadingStar (isLineTerminator c) s'
      end
  end.

(** [formatted.replace(/\*/g, '')] *)
Definition removeAsterisks (s : jsstring) : jsstring :=
  filter (fun c => negb (N.eqb c 42)) s.

(** [formatted.replace(/\n\n/g, '<br/><br/>')], matches taken left to
    right without overlap. *)
Fixpoint replaceDoubleNewline (s : jsstring) : jsstring :=
  match s with
  | [] => []
  | c :: s' =>
      match s' with
      | d :: s'' =>
          if N.eqb c 10 && N.eqb d 10
          then u16 "<br/><br/>" ++ replaceDoubleNewline s''
          else c :: replaceDoubleNewline s'
      | [] => c :: replaceDoubleNewline s'
      end
  end.

(** [formatted.replace(/\n/g, '<br/>')] *)
Definition replaceNewline (s : jsstring) : jsstring :=
  flat_map (fun c => if N.eqb c 10 then u16 "<br/>" else [c]) s.

(** No code unit of [s] is the asterisk. *)
Definition noStar (s : jsstring) : Prop := Forall (fun c => c <> 42%N) s.

Definition formatGeminiResponse (text : jsvalue) : jsstring :=
  match text with
  | JUndefined | JNull => []
  | JString s =>
      if falsy s then []
      else replaceNewline
             (replaceDoubleNewline
                (removeAsterisks (replaceLeadingStar true s)))
  end.

(* ================================================================== *)
(** ** Component state and the world of the handler *)
(* ================================================================== *)

(** A catalog entry as the backend serialises it. *)
Record Product := mkProduct {
  id : N;
  name : jsstring;
  description : jsstring;
  price : Q;
  category : jsstring;
  brand : jsstring;
  image_url : jsstring;
  tags : list jsstring
}.

(** The [apiStatus] prop: the three values [App.js] ever sets. *)
Module ApiStatus.
Inductive t := checking | connected | error.
Definition is_connected (a : t) : bool :=
  match a with connected => true | _ => false end.
End ApiStatus.

Inductive MessageType := user | bot.

Record Message := mkMessage {
  type : MessageType;
  message : jsvalue;
  timestamp : jsstring
}.

(** Values of [lastFeature] other than the initial [null]. *)
Inductive Feature := agent | image | text | chat.

(** The [useState] cells of [ChatInterface]. *)
Record ChatState := mkChatState {
  query : jsstring;
  messages : list Message;
  products : list Product;
  isLoading : bool;
  lastFeature : option Feature;
  showProducts : bool;
  agentMode : bool
}.

Inductive Endpoint :=
| api_agent_chat
| api_image_search
| api_recommend
| api_chat.

(** The JSON body of a POST: [{ query }] or [{ description: query }]. *)
Inductive Body :=
| QueryBody (q : jsstring)
| DescriptionBody (q : jsstring).

Record Request := mkRequest { url : Endpoint; body : Body }.

(** [response.data] of a resolved request, when it is an object: its
    [response] field and its [products] field ([None] when the field is
    absent or [null], otherwise an array). *)
Record ResponseData := mkData {
  response : jsvalue;
  data_products : option (list Product)
}.

(** What awaiting [axios.post] gives: a rejection, or a response whose
    [data] is an object ([Some]) or [null] ([None]). *)
Inductive AxiosResult :=
| Rejected (reason : jsstring)
| Resolved (data : option ResponseData).

Inductive JSError :=
| AxiosError (reason : jsstring)
| TypeError.

(** Everything the handler reads or writes: the component state, the
    requests sent so far (oldest first), the console and the number of
    clock readings taken. *)
Record World := mkWorld {
  ui : ChatState;
  sent : list Request;
  console : list JSError;
  clock : nat
}.

(** How a piece of code ends: normally with a value, or by throwing. *)
Inductive Completion (A : Type) :=
| Normal (a : A) (w : World)
| Abrupt (e : JSError) (w : World).

Arguments Normal {A} a w.
Arguments Abrupt {A} e w.

Definition Action (A : Type) := World -> Completion A.

Definition ret {A} (a : A) : Action A := fun w => Normal a w.

Definition bind {A B} (c : Action A) (k : A -> Action B) : Action B :=
  fun w =>
    match c w with
    | Normal a w' => k a w'
    | Abrupt e w' => Abrupt e w'
    end.

Definition throw {A} (e : JSError) : Action A := fun w => Abrupt e w.

Declare Scope action_scope.
Delimit Scope action_scope with action.
Notation "x <- c ;; k" := (bind c (fun x => k))
  (at level 61, c at next level, right associativity) : action_scope.
Notation "c ;; k" := (bind c (fun _ => k))
  (at level 61, right associativity) : action_scope.

(** [try { body } catch (error) { handler } finally { finalizer }] *)
Definition tryCatchFinally (body : Action unit)
    (handler : JSError -> Action unit) (finalizer : Action unit)
  : Action unit :=
  fun w =>
    let guarded :=
      match body w with
      | Normal a w1 => Normal a w1
      | Abrupt e w1 => handler e w1
      end in
    match guarded with
    | Normal a w2 => finalizer w2
    | Abrupt e w2 =>
        match finalizer w2 with
        | Normal _ w3 => Abrupt e w3
        | Abrupt e' w3 => Abrupt e' w3
        end
    end.

Definition finalWorld {A} (c : Completion A) : World :=
  match c with Normal _ w => w | Abrupt _ w => w end.

Definition completesNormally {A} (c : Completion A) : bool :=
  match c with Normal _ _ => true | Abrupt _ _ => false end.

(** State setters ([useState] updaters); the functional form of
    [setMessages] is the one the source uses. *)
Definition updateState (f : ChatState -> ChatState) : Action unit :=
  fun w => Normal tt (mkWorld (f (ui w)) (sent w) (console w) (clock w)).

Definition setMessages (f : list Message -> list Message) : Action unit :=
  updateState (fun s => mkChatState (query s) (f (messages s)) (products s)
    (isLoading s) (lastFeature s) (showProducts s) (agentMode s)).

Definition setQuery (q : jsstring) : Action unit :=
  updateState (fun s => mkChatState q (messages s) (products s)
    (isLoading s) (lastFeature s) (showProducts s) (agentMode s)).

Definition setProducts (ps : list Product) : Action unit :=
  updateState (fun s => mkChatState (query s) (messages s) ps
    (isLoading s) (lastFeature s) (showProducts s) (agentMode s)).

Definition setIsLoading (b : bool) : Action unit :=
  updateState (fun s => mkChatState (query s) (messages s) (products s)
    b (lastFeature s) (showProducts s) (agentMode s)).

Definition setLastFeature (f : Feature) : Action unit :=
  updateState (fun s => mkChatState (query s) (messages s) (products s)
    (isLoading s) (Some f) (showProducts s) (agentMode s)).

Definition setShowProducts (b : bool) : Action unit :=
  updateState (fun s => mkChatState (query s) (messages s) (products s)
    (isLoading s) (lastFeature s) b (agentMode s)).

(** [console.error('API Error:', error)] *)
Definition consoleError (e : JSError) : Action unit :=
  fun w => Normal tt (mkWorld (ui w) (sent w) (console w ++ [e]) (clock w)).

(** [response.data.products || []] *)
Definition productsOrEmpty (d : ResponseData) : list Product :=
  match data_products d with
  | Some ps => ps
  | None => []
  end.

(** [response.data.products && response.data.products.length > 0] as a
    condition. *)
Definition hasProducts (d : ResponseData) : bool :=
  match data_products d with
  | Some (_ :: _) => true
  | _ => false
  end.

(* ================================================================== *)
(** ** [handleSubmit] *)
(* ================================================================== *)

(** Text fragments of the bot messages. *)
Definition agentHeader : jsstring :=
  u16 "<b>" ++ [55358; 56598]%N ++ u16 " Agent Mode:</b> ".

Definition cartHeader : jsstring :=
  u16 "<br/><br/>" ++ [55357; 57042]%N ++ u16 " <b>Product Recommendations:</b> ".

Definition imageHeader : jsstring :=
  [55357; 56764; 65039]%N ++ u16 " <b>Image-Based Product Search:</b> ".

Definition textHeader : jsstring :=
  [55357; 56541]%N ++ u16 " <b>Text-Based Product Recommendation:</b> ".

Definition foundCount (n : nat) (tail : string) : jsstring :=
  u16 "I found <b>" ++ numberToString n ++ u16 "</b> product(s) " ++ u16 tail.

(** The count sentence of the agent reply. *)
Definition agentProductsText (d : ResponseData) : jsstring :=
  cartHeader ++
  (if hasProducts d
   then foundCount (List.length (productsOrEmpty d)) "for you."
   else u16 "Sorry, I couldn't find any products matching your request.").

Definition agentText (d : ResponseData) : jsstring :=
  agentHeader ++ formatGeminiResponse (response d) ++ agentProductsText d.

Definition imageText (d : ResponseData) : jsstring :=
  imageHeader ++
  (if hasProducts d
   then foundCount (List.length (productsOrEmpty d)) "matching your description."
   else u16 "Sorry, I couldn't find any products matching your description.").

Definition recommendText (d : ResponseData) : jsstring :=
  textHeader ++
  (if hasProducts d
   then foundCount (List.length (productsOrEmpty d)) "that match your request."
   else u16 "Sorry, I couldn't find any products matching your request.").

Definition apologyText : jsstring :=
  u16 "I'm sorry, I'm having trouble connecting to my services right now. Please try again in a moment.".

(** The endpoint and body each branch posts. *)
Definition requestFor (i : Intent) (query : jsstring) : Request :=
  match i with
  | image_description => mkRequest api_image_search (DescriptionBody query)
  | text_recommendation => mkRequest api_recommend (QueryBody query)
  | general_conversation => mkRequest api_chat (QueryBody query)
  end.

Definition agentRequest (query : jsstring) : Request :=
  mkRequest api_agent_chat (QueryBody query).

(** [disabled] of the Send button in [InputArea]. *)
Definition sendDisabled (apiStatus : ApiStatus.t) (isLoading : bool)
    (query : jsstring) : bool :=
  isLoading || negb (ApiStatus.is_connected apiStatus) || falsy (trim query).

(** The submissions the guard at the top of [handleSubmit] lets through. *)
Definition passesGuard (apiStatus : ApiStatus.t) (w : World) : bool :=
  negb (falsy (trim (query (ui w)))) && negb (isLoading (ui w))
  && ApiStatus.is_connected apiStatus.

Section Handler.

Local Open Scope action_scope.

(** The runtime's case mapping, the backend reached through [axios.post],
    the clock behind [new Date().toISOString()] (its n-th reading), and
    the [apiStatus] prop. *)
Variable toLowerCase : jsstring -> jsstring.
Variable post : Request -> AxiosResult.
Variable now : nat -> jsstring.
Variable apiStatus : ApiStatus.t.

(** [new Date().toISOString()] *)
Definition newDate : Action jsstring :=
  fun w => Normal (now (clock w))
             (mkWorld (ui w) (sent w) (console w) (S (clock w))).

(** [await axios.post(url, body)]: the request goes out; a rejection is
    thrown at the [await]. The value is [response.data]. *)
Definition axiosPost (r : Request) : Action (option ResponseData) :=
  fun w =>
    let w' := mkWorld (ui w) (sent w ++ [r]) (console w) (clock w) in
    match post r with
    | Rejected reason => Abrupt (AxiosError reason) w'
    | Resolved data => Normal data w'
    end.

(** First property read on [response.data]: a TypeError when it is
    [null]. *)
Definition dataOf (data : option ResponseData) : Action ResponseData :=
  match data with
  | Some d => ret d
  | None => throw TypeError
  end.

Definition appendBot (msg : jsvalue) : Action unit :=
  t <- newDate ;;
  setMessages (fun prev => prev ++ [mkMessage bot msg t]).

(** [if (agentMode) { ... return; }] *)
Definition agentBranch (query : jsstring) : Action unit :=
  r <- axiosPost (agentRequest query) ;;
  d <- dataOf r ;;
  setProducts (productsOrEmpty d) ;;
  setLastFeature agent ;;
  setShowProducts (hasProducts d) ;;
  appendBot (JString (agentText d)).

(** Image-Based Product Search *)
Definition imageBranch (query : jsstring) : Action unit :=
  r <- axiosPost (requestFor image_description query) ;;
  d <- dataOf r ;;
  setProducts (productsOrEmpty d) ;;
  setLastFeature image ;;
  setShowProducts true ;;
  appendBot (JString (imageText d)).

(** Text-Based Product Recommendation *)
Definition recommendBranch (query : jsstring) : Action unit :=
  r <- axiosPost (requestFor text_recommendation query) ;;
  d <- dataOf r ;;
  setProducts (productsOrEmpty d) ;;
  setLastFeature text ;;
  setShowProducts true ;;
  appendBot (JString (recommendText d)).

(** General conversation *)
Definition chatBranch (query : jsstring) : Action unit :=
  r <- axiosPost (requestFor general_conversation query) ;;
  d <- dataOf r ;;
  setProducts (productsOrEmpty d) ;;
  setLastFeature chat ;;
  setShowProducts (hasProducts d) ;;
  appendBot (response d).

(** The body of the [try]. *)
Definition tryBody (agentMode : bool) (query : jsstring) : Action unit :=
  if agentMode then agentBranch query
  else
    match classify toLowerCase query with
    | image_description => imageBranch query
    | text_recommendation => recommendBranch query
    | general_conversation => chatBranch query
    end.

(** The [catch] block. *)
Definition catchBlock (e : JSError) : Action unit :=
  consoleError e ;;
  appendBot (JString apologyText).

(** [handleSubmit]: [query], [isLoading], [agentMode] and [apiStatus] are
    the values of the render the handler closes over. [e.preventDefault()]
    acts on the browser event only and is left out. *)
Definition handleSubmit : Action unit :=
  fun w =>
    let s := ui w in
    let query := query s in
    if falsy (trim query) || isLoading s
       || negb (ApiStatus.is_connected apiStatus)
    then Normal tt w
    else
      (t <- newDate ;;
       setMessages (fun prev => prev ++ [mkMessage user (JString query) t]) ;;
       setQuery [] ;;
       setIsLoading true ;;
       tryCatchFinally (tryBody (agentMode s) query) catchBlock
         (setIsLoading false)) w.

(** The endpoint a submission that passes the guard goes to. *)
Definition route (agentMode : bool) (query : jsstring) : Request :=
  if agentMode then agentRequest query
  else requestFor (classify toLowerCase query) query.

End Handler.

(** What each branch shows for a reply [d]: the [lastFeature] tag, the
    [showProducts] flag and the text of the bot message. It summarises the
    four branches; [handleSubmit_resolved] relates it to the handler. *)
Definition branchOutcome (agentMode : bool) (i : Intent) (d : ResponseData)
  : Feature * bool * jsvalue :=
  if agentMode then (agent, hasProducts d, JString (agentText d))
  else
    match i with
    | image_description => (image, true, JString (imageText d))
    | text_recommendation => (text, true, JString (recommendText d))
    | general_conversation => (chat, hasProducts d, response d)
    end.

(* ================================================================== *)
(** ** The matcher's fallback chain *)
(* ================================================================== *)

Module Matcher.

(** Modelled from the spec: the [matchedVia] tag, which stage of the
    chain produced a result. *)
Inductive MatchedVia :=
| via_semantic
| via_keyword
| via_category
| via_default.

(** Modelled from the spec: a product, its score and the stage tag. *)
Record MatchResult := mkResult {
  product : Product;
  score : Q;
  matchedVia : MatchedVia
}.

(** Modelled from the spec: a query after the Normalizer, its raw text
    and its tokens. *)
Record Query := mkQuery {
  rawText : jsstring;
  tokens : list jsstring
}.

(** Modelled from the spec: exact match of a token and a category name. *)
Definition sameText (a b : jsstring) : bool :=
  if list_eq_dec N.eq_dec a b then true else false.

(** Modelled from the spec: the result order, score descending, ties by
    ascending product id. *)
Definition precedes (a b : MatchResult) : bool :=
  negb (Qle_bool (score a) (score b)) ||
  (Qeq_bool (score a) (score b) && N.leb (id (product a)) (id (product b))).

(** Modelled from the spec: sorting into that order, by insertion. *)
Fixpoint insertResult (r : MatchResult) (l : list MatchResult)
  : list MatchResult :=
  match l with
  | [] => [r]
  | x :: l' => if precedes r x then r :: l else x :: insertResult r l'
  end.

Definition rank (l : list MatchResult) : list MatchResult :=
  fold_right insertResult [] l.

(** Modelled from the spec: the catalog by ascending id, for the default
    stage. *)
Fixpoint insertById (p : Product) (l : list Product) : list Product :=
  match l with
  | [] => [p]
  | x :: l' => if N.leb (id p) (id x) then p :: l else x :: insertById p l'
  end.

Definition sortById (l : list Product) : list Product :=
  fold_right insertById [] l.

(** Modelled from the spec: a stage yielded at least one result. *)
Definition nonEmpty {A} (l : list A) : bool :=
  match l with [] => false | _ :: _ => true end.

Section Chain.

(** Modelled from the spec: the backend matcher ([backend/product_catalog.py],
    [backend/nlp_utils.py]) is not among the sources; the four stages and
    their order follow section 4.4 of the design document.  The cosine
    similarity of the query vector and a product vector is floating-point
    arithmetic over the index and enters as [similarity]; [tau_semantic] is
    the threshold of the semantic stage and [uniformScore] the score the
    category stage gives every product it returns. *)
Variable similarity : Query -> Product -> Q.
Variable tau_semantic : Q.
Variable uniformScore : Q.
Variable toLowerCase : jsstring -> jsstring.

(** Modelled from the spec: semantic stage, results with similarity at
    least [tau_semantic], sorted descending. *)
Definition semanticStage (q : Query) (catalog : list Product)
  : list MatchResult :=
  rank (map (fun p => mkResult p (similarity q p) via_semantic)
          (filter (fun p => Qle_bool tau_semantic (similarity q p)) catalog)).

(** Modelled from the spec: a query token overlaps a product when it
    occurs in one of its tags, its name, its brand or its category. *)
Definition overlaps (token : jsstring) (p : Product) : bool :=
  existsb (fun field => includes (toLowerCase field) token)
    (tags p ++ [name p; brand p; category p]).

(** Modelled from the spec: how many query tokens overlap the product. *)
Definition overlapCount (q : Query) (p : Product) : nat :=
  List.length (filter (fun t => overlaps t p) (tokens q)).

(** Modelled from the spec: count of overlapping tokens normalised by the
    query length. *)
Definition keywordScore (q : Query) (p : Product) : Q :=
  Z.of_nat (overlapCount q p) # Pos.of_nat (List.length (tokens q)).

(** Modelled from the spec: keyword stage, results with score above 0. *)
Definition keywordStage (q : Query) (catalog : list Product)
  : list MatchResult :=
  rank (map (fun p => mkResult p (keywordScore q p) via_keyword)
          (filter (fun p => negb (Qle_bool (keywordScore q p) 0)) catalog)).

(** Modelled from the spec: category stage, all products whose category is
    exactly one of the query tokens, uniformly scored. *)
Definition categoryStage (q : Query) (catalog : list Product)
  : list MatchResult :=
  rank (map (fun p => mkResult p uniformScore via_category)
          (filter (fun p => existsb (fun t => sameText t (category p)) (tokens q))
             catalog)).

(** Modelled from the spec: default stage, the first N products by id with
    score 0. *)
Definition defaultStage (catalog : list Product) (n : nat)
  : list MatchResult :=
  map (fun p => mkResult p 0 via_default) (firstn n (sortById catalog)).

(** Modelled from the spec: each stage runs only if the one before it
    yielded nothing. *)
Definition fallbackChain (q : Query) (catalog : list Product) (topN : nat)
  : list MatchResult :=
  let s1 := semanticStage q catalog in
  if nonEmpty s1 then s1 else
  let s2 := keywordStage q catalog in
  if nonEmpty s2 then s2 else
  let s3 := categoryStage q catalog in
  if nonEmpty s3 then s3 else
  defaultStage catalog topN.

(** Modelled from the spec: [match(query, index, topN)], at most [topN]
    results. *)
Definition match_ (q : Query) (catalog : list Product) (topN : nat)
  : list MatchResult :=
  firstn topN (fallbackChain q catalog topN).

End Chain.

End Matcher.

(* ================================================================== *)
(** ** Sample data *)
(* ================================================================== *)

(** Concrete values for running the model: products and replies of the
    shapes the README documents, a clock, and three backends. *)
Module Sample.

Definition tshirt : Product :=
  mkProduct 2 (u16 "Adidas Performance T-Shirt")
    (u16 "High-performance sports t-shirt...") (3499 # 100)
    (u16 "clothing") (u16 "Adidas") (u16 "https://images.unsplash.com/...")
    [u16 "t-shirt"; u16 "sports"; u16 "athletic"].

Definition yogaMat : Product :=
  mkProduct 7 (u16 "Yoga Mat") (u16 "Non-slip exercise mat") (2999 # 100)
    (u16 "sports") (u16 "Gaiam") (u16 "https://images.unsplash.com/...")
    [u16 "yoga"; u16 "mat"; u16 "fitness"].

Definition time (n : nat) : jsstring := u16 "2024-01-15T10:30:00.000Z".

(** The component with [q] typed in, the t-shirt on display from an
    earlier search, nothing in flight. *)
Definition typed (q : jsstring) (agentMode : bool) : World :=
  mkWorld (mkChatState q [] [tshirt] false (Some text) true agentMode) [] [] 0.

(** No backend reachable: every request is rejected. *)
Definition offline (r : Request) : AxiosResult :=
  Rejected (u16 "Network Error").



(** A backend whose chat and recommend endpoints answer with a product
    and whose agent endpoint finds none. *)
Definition shop (r : Request) : AxiosResult :=
  match url r with
  | api_agent_chat =>
      Resolved (Some (mkData (JString (u16 "* Try a mat")) (Some [])))
  | api_chat =>
      Resolved (Some (mkData (JString (u16 "Here are some products you might like:"))
                        (Some [yogaMat])))
  | _ => Resolved (Some (mkData JUndefined (Some [tshirt])))
  end.

End Sample.

(* ================================================================== *)
(** ** The other handlers of [ChatInterface] and the components around it *)
(* ================================================================== *)

(** [a === b] on strings. *)
Definition strictEquals (a b : jsstring) : bool :=
  if list_eq_dec N.eq_dec a b then true else false.

(** The text a request carries, whichever key it is sent under. *)
Definition bodyText (b : Body) : jsstring :=
  match b with
  | QueryBody q => q
  | DescriptionBody q => q
  end.

(** What [handleKeyPress] reads of a keyboard event. *)
Record KeyboardEvent := mkKey { key : jsstring; shiftKey : bool }.

(** [setAgentMode] *)
Definition setAgentMode (b : bool) : Action unit :=
  updateState (fun s => mkChatState (query s) (messages s) (products s)
    (isLoading s) (lastFeature s) (showProducts s) b).

(** The checkbox of [ChatHeader]: [onChange={() => setAgentMode(!agentMode)}]. *)
Definition toggleAgentMode : Action unit :=
  fun w => setAgentMode (negb (agentMode (ui w))) w.

(** The status line of [ChatHeader]. *)
Definition chatHeaderStatus (apiStatus : ApiStatus.t) : jsstring :=
  if ApiStatus.is_connected apiStatus then u16 "Online" else u16 "Offline".

Section Keyboard.

Variable toLowerCase : jsstring -> jsstring.
Variable post : Request -> AxiosResult.
Variable now : nat -> jsstring.
Variable apiStatus : ApiStatus.t.

(** [handleKeyPress]: Enter without Shift submits. *)
Definition handleKeyPress (e : KeyboardEvent) : Action unit :=
  if strictEquals (key e) (u16 "Enter") && negb (shiftKey e)
  then handleSubmit toLowerCase post now apiStatus
  else ret tt.

End Keyboard.

(** *** [InputArea] *)

(** The quick-suggestion buttons, as labelled in the component. *)
Definition textSuggestions : list jsstring :=
  [u16 "Recommend running shoes"; u16 "Show me t-shirts"; u16 "Find electronics"].

Definition imageSuggestions : list jsstring :=
  [u16 "A blue sports t-shirt"; u16 "Black running shoes";
   u16 "A picture of wireless headphones"].

(** [onClick={() => setQuery(suggestion)}] *)
Definition clickSuggestion (suggestion : jsstring) : Action unit :=
  setQuery suggestion.

(** [disabled] of the file input and of the text input. *)
Definition inputDisabled (apiStatus : ApiStatus.t) (isLoading : bool) : bool :=
  isLoading || negb (ApiStatus.is_connected apiStatus).

(** *** [ProductsDisplay] *)

(** What the panel shows when it renders: the heading text and one card
    per product, in order. *)
Record Panel := mkPanel { heading : jsstring; cards : list Product }.

(** The three conditional fragments of the heading. *)
Definition panelHeading (lastFeature : option Feature) : jsstring :=
  (match lastFeature with
   | Some image => [55357; 56764; 65039]%N ++ u16 " Image-Based Product Search Results"
   | _ => []
   end) ++
  (match lastFeature with
   | Some text => [55357; 56541]%N ++ u16 " Text-Based Product Recommendation Results"
   | _ => []
   end) ++
  (match lastFeature with
   | Some chat => u16 "Recommended Products"
   | _ => []
   end).

(** [ProductsDisplay]: [None] is the [return null]. *)
Definition ProductsDisplay (products : list Product) (showProducts : bool)
    (lastFeature : option Feature) : option Panel :=
  if Nat.eqb (List.length products) 0 || negb showProducts then None
  else Some (mkPanel (panelHeading lastFeature) products).

(** The panel for a component state. *)
Definition panelOf (s : ChatState) : option Panel :=
  ProductsDisplay (products s) (showProducts s) (lastFeature s).

(** *** [Header] *)

Module Header.

Definition getStatusColor (apiStatus : ApiStatus.t) : jsstring :=
  match apiStatus with
  | ApiStatus.connected => u16 "bg-green-500"
  | ApiStatus.error => u16 "bg-red-500"
  | _ => u16 "bg-yellow-500"
  end.

Definition getStatusText (apiStatus : ApiStatus.t) : jsstring :=
  match apiStatus with
  | ApiStatus.connected => u16 "Connected"
  | ApiStatus.error => u16 "Disconnected"
  | _ => u16 "Checking..."
  end.

End Header.

(** *** [App] *)

Module App.

(** How [fetch] ends: rejected, or resolved with [response.ok]. *)
Inductive FetchResult :=
| FetchRejected (reason : jsstring)
| FetchResolved (ok : bool).

(** The two [useState] cells of [App], and what went to the console. *)
Record State := mkState {
  isLoading : bool;
  apiStatus : ApiStatus.t;
  console : list jsstring
}.

(** The state at mount. *)
Definition initial : State := mkState true ApiStatus.checking [].

Definition setApiStatus (a : ApiStatus.t) (s : State) : State :=
  mkState (isLoading s) a (console s).

Definition setIsLoading (b : bool) (s : State) : State :=
  mkState b (apiStatus s) (console s).

Definition consoleError (reason : jsstring) (s : State) : State :=
  mkState (isLoading s) (apiStatus s) (console s ++ [reason]).

(** [checkApiHealth], given how the [fetch] ends: the [try] sets the
    status from [response.ok], the [catch] logs and sets 'error', the
    [finally] clears the loading flag. *)
Definition checkApiHealth (r : FetchResult) (s : State) : State :=
  let s1 :=
    match r with
    | FetchResolved true => setApiStatus ApiStatus.connected s
    | FetchResolved false => setApiStatus ApiStatus.error s
    | FetchRejected reason => setApiStatus ApiStatus.error (consoleError reason s)
    end in
  setIsLoading false s1.

(** What [App] renders: the initialising screen, or the page with the
    header's status text, the connection-error banner or not, and the
    [apiStatus] handed to [ChatInterface]. *)
Inductive View :=
| Initializing
| Page (statusText : jsstring) (errorBanner : bool) (chatApiStatus : ApiStatus.t).

Definition render (s : State) : View :=
  if isLoading s then Initializing
  else Page (Header.getStatusText (apiStatus s))
         (match apiStatus s with ApiStatus.error => true | _ => false end)
         (apiStatus s).

End App.

(* ================================================================== *)
(** ** [handleImageUpload] and the drag-and-drop handlers *)
(* ================================================================== *)

(** What the handlers use of a [File]: its name; the content is only
    passed on. *)
Module File.
Record t := mk { name : jsstring; bytes : list N }.
End File.

(** The requests of the upload handler: the multipart posts to
    [/api/agent_image] (image and prompt) and [/api/image_upload]
    (image), and the JSON post to [/api/chat] whose [query] is whatever
    the agent's reply held in [response]. *)
Inductive UploadCall :=
| PostAgentImage (image : File.t) (prompt : jsstring)
| PostChat (query : jsvalue)
| PostImageUpload (image : File.t).

(** The world of the upload and drag handlers: that of the component,
    the upload requests sent so far (oldest first) and the drag flag. *)
Record Page := mkPage {
  world : World;
  calls : list UploadCall;
  isDragActive : bool
}.

Inductive PageCompletion (A : Type) :=
| Done (a : A) (p : Page)
| Failed (e : JSError) (p : Page).

Arguments Done {A} a p.
Arguments Failed {A} e p.

Definition PageAction (A : Type) := Page -> PageCompletion A.

Definition pageRet {A} (a : A) : PageAction A := fun p => Done a p.

Definition pageBind {A B} (c : PageAction A) (k : A -> PageAction B)
  : PageAction B :=
  fun p =>
    match c p with
    | Done a p' => k a p'
    | Failed e p' => Failed e p'
    end.

Declare Scope page_scope.
Delimit Scope page_scope with page.
Notation "x <- c ;; k" := (pageBind c (fun x => k))
  (at level 61, c at next level, right associativity) : page_scope.
Notation "c ;; k" := (pageBind c (fun _ => k))
  (at level 61, right associativity) : page_scope.

(** An action of the component, run inside the page. *)
Definition liftAction {A} (a : Action A) : PageAction A :=
  fun p =>
    match a (world p) with
    | Normal x w => Done x (mkPage w (calls p) (isDragActive p))
    | Abrupt e w => Failed e (mkPage w (calls p) (isDragActive p))
    end.

(** [try { body } catch (error) { handler } finally { finalizer }] *)
Definition pageTryCatchFinally (body : PageAction unit)
    (handler : JSError -> PageAction unit) (finalizer : PageAction unit)
  : PageAction unit :=
  fun p =>
    let guarded :=
      match body p with
      | Done a p1 => Done a p1
      | Failed e p1 => handler e p1
      end in
    match guarded with
    | Done a p2 => finalizer p2
    | Failed e p2 =>
        match finalizer p2 with
        | Done _ p3 => Failed e p3
        | Failed e' p3 => Failed e' p3
        end
    end.

Definition finalPage {A} (c : PageCompletion A) : Page :=
  match c with Done _ p => p | Failed _ p => p end.

(** [setIsDragActive] *)
Definition setIsDragActive (b : bool) : PageAction unit :=
  fun p => Done tt (mkPage (world p) (calls p) b).

(** Text fragments of the upload messages. *)
Definition uploadedText (file : File.t) : jsstring :=
  u16 "Uploaded an image: " ++ File.name file.

Definition uploadPrompt : jsstring := u16 "What products do you see?".

Definition agentImageHeader : jsstring :=
  u16 "<b>" ++ [55358; 56598]%N ++ u16 " Agent Mode (Image):</b> ".

Definition frameHeader : jsstring :=
  u16 "<br/><br/>" ++ [55357; 56764; 65039]%N
    ++ u16 " <b>Product Recommendations:</b> ".

Definition uploadCountText (d : ResponseData) : jsstring :=
  if hasProducts d
  then foundCount (List.length (productsOrEmpty d)) "matching your uploaded image."
  else u16 "Sorry, I couldn't find any products matching your uploaded image.".

(** The bot message of the agent path: the agent's reply [a] formatted,
    then the count sentence for the chat reply [c]. *)
Definition agentImageText (a c : ResponseData) : jsstring :=
  agentImageHeader ++ formatGeminiResponse (response a)
    ++ frameHeader ++ uploadCountText c.

Definition uploadText (d : ResponseData) : jsstring :=
  imageHeader ++ uploadCountText d.

Definition uploadApologyText : jsstring :=
  u16 "Sorry, there was a problem processing your image.".

Section Upload.

Local Open Scope page_scope.

(** The backend as the upload handler reaches it, the clock, and the
    [apiStatus] prop. *)
Variable upload : UploadCall -> AxiosResult.
Variable now : nat -> jsstring.
Variable apiStatus : ApiStatus.t.

(** [await axios.post(...)] of the upload handler. *)
Definition uploadPost (c : UploadCall) : PageAction (option ResponseData) :=
  fun p =>
    let p' := mkPage (world p) (calls p ++ [c]) (isDragActive p) in
    match upload c with
    | Rejected reason => Failed (AxiosError reason) p'
    | Resolved data => Done data p'
    end.

(** The agent path of the [try]: the agent looks at the image, then the
    chat endpoint is asked about the agent's reply. *)
Definition agentUploadBranch (file : File.t) : PageAction unit :=
  agentResponse <- uploadPost (PostAgentImage file uploadPrompt) ;;
  a <- liftAction (dataOf agentResponse) ;;
  chatResponse <- uploadPost (PostChat (response a)) ;;
  c <- liftAction (dataOf chatResponse) ;;
  liftAction (setProducts (productsOrEmpty c)) ;;
  liftAction (setLastFeature image) ;;
  liftAction (setShowProducts true) ;;
  liftAction (appendBot now (JString (agentImageText a c))).

(** The plain path of the [try]. *)
Definition plainUploadBranch (file : File.t) : PageAction unit :=
  r <- uploadPost (PostImageUpload file) ;;
  d <- liftAction (dataOf r) ;;
  liftAction (setProducts (productsOrEmpty d)) ;;
  liftAction (setLastFeature image) ;;
  liftAction (setShowProducts true) ;;
  liftAction (appendBot now (JString (uploadText d))).

(** The [catch] block. *)
Definition uploadCatch (e : JSError) : PageAction unit :=
  liftAction (consoleError e) ;;
  liftAction (appendBot now (JString uploadApologyText)).

(** [handleImageUpload]; [files] is [e.target.files], and [isLoading],
    [agentMode] and [apiStatus] are those of the render the handler
    closes over. The user message is built inside the updater; its clock
    reading is taken where the update is queued. *)
Definition handleImageUpload (files : list File.t) : PageAction unit :=
  fun p =>
    let s := ui (world p) in
    match nth_error files 0 with
    | None => Done tt p
    | Some file =>
        if isLoading s || negb (ApiStatus.is_connected apiStatus)
        then Done tt p
        else
          (liftAction (setIsLoading true) ;;
           liftAction
             (t <- newDate now ;;
              setMessages
                (fun prev => prev ++ [mkMessage user (JString (uploadedText file)) t]))%action ;;
           pageTryCatchFinally
             (if agentMode s then agentUploadBranch file
              else plainUploadBranch file)
             uploadCatch
             (liftAction (setIsLoading false))) p
    end.

(** [handleDragOver] and [handleDragLeave] *)
Definition handleDragOver : PageAction unit := setIsDragActive true.
Definition handleDragLeave : PageAction unit := setIsDragActive false.

(** [handleDrop]; [files] is [e.dataTransfer.files] ([None] when it is
    missing). Only the first file goes on, in a synthetic event. *)
Definition handleDrop (files : option (list File.t)) : PageAction unit :=
  setIsDragActive false ;;
  match files with
  | Some (file :: _) => handleImageUpload [file]
  | _ => pageRet tt
  end.

End Upload.

(* ================================================================== *)
(** * Properties *)
(* ================================================================== *)

(** ** Strings *)

Lemma trimStart_whitespace_only (s : jsstring) :
  forallb isTrimmed s = true -> trimStart s = [].
Proof.
  induction s as [|c s IH]; simpl; [reflexivity|].
  intros H. apply andb_true_iff in H as [Hc Hs].
  rewrite Hc. now apply IH.
Qed.

Lemma trim_whitespace_only (s : jsstring) :
  forallb isTrimmed s = true -> trim s = [].
Proof.
  intros H. unfold trim, trimEnd.
  rewrite (trimStart_whitespace_only s H). reflexivity.
Qed.

Lemma trimStart_nil_inv (s : jsstring) :
  trimStart s = [] -> forallb isTrimmed s = true.
Proof.
  induction s as [|c s IH]; simpl; [reflexivity|].
  destruct (isTrimmed c); simpl; [exact IH | discriminate].
Qed.

(** [trim] gives the empty string exactly on whitespace-only input. *)
Lemma trim_nil_iff (s : jsstring) :
  trim s = [] <-> forallb isTrimmed s = true.
Proof.
  split; [|apply trim_whitespace_only].
  unfold trim, trimEnd. intros H.
  apply trimStart_nil_inv.
  apply (f_equal (@rev N)) in H. rewrite rev_involutive in H. simpl in H.
  apply trimStart_nil_inv in H.
  rewrite forallb_forall in H.
  destruct (trimStart s) as [|c t] eqn:E; [reflexivity|].
  exfalso.
  assert (Hc : isTrimmed c = true) by (apply H, in_rev; rewrite rev_involutive; left; reflexivity).
  clear -E Hc. induction s as [|d s IH]; simpl in E; [discriminate|].
  destruct (isTrimmed d) eqn:D; [auto|].
  injection E as -> _. congruence.
Qed.

Lemma startsWith_In (p s : jsstring) :
  startsWith s p = true -> forall c, In c p -> In c s.
Proof.
  revert s. induction p as [|x p IH]; intros s H c Hc; [destruct Hc|].
  destruct s as [|d s]; simpl in H; [discriminate|].
  apply andb_true_iff in H as [Hd Hs]. apply N.eqb_eq in Hd. subst d.
  destruct Hc as [<-|Hc]; [now left|right]. exact (IH s Hs c Hc).
Qed.

Lemma includes_In (s p : jsstring) :
  includes s p = true -> forall c, In c p -> In c s.
Proof.
  induction s as [|d s IH]; simpl; intros H c Hc.
  - rewrite orb_false_r in H. exact (startsWith_In p [] H c Hc).
  - apply orb_true_iff in H as [H|H].
    + exact (startsWith_In p (d :: s) H c Hc).
    + right. exact (IH H c Hc).
Qed.

(** A blank string contains no text that has a visible unit. *)
Lemma blank_includes (s p : jsstring) (c : N) :
  forallb isTrimmed s = true -> In c p -> isTrimmed c = false ->
  includes s p = false /\ startsWith s p = false.
Proof.
  intros B Hc Hv. rewrite forallb_forall in B.
  split.
  - destruct (includes s p) eqn:E; [|reflexivity].
    specialize (B c (includes_In s p E c Hc)). congruence.
  - destruct (startsWith s p) eqn:E; [|reflexivity].
    specialize (B c (startsWith_In p s E c Hc)). congruence.
Qed.

(** ** The rule chain *)

Lemma classify_image toLowerCase (q : jsstring) :
  imageRule toLowerCase q = true ->
  classify toLowerCase q = image_description.
Proof. unfold classify. now intros ->. Qed.

Lemma classify_text toLowerCase (q : jsstring) :
  imageRule toLowerCase q = false ->
  textRule toLowerCase q = true ->
  classify toLowerCase q = text_recommendation.
Proof. unfold classify. now intros -> ->. Qed.

Lemma classify_general toLowerCase (q : jsstring) :
  imageRule toLowerCase q = false ->
  textRule toLowerCase q = false ->
  classify toLowerCase q = general_conversation.
Proof. unfold classify. now intros -> ->. Qed.

(** The three branch conditions are exhaustive and exclusive, and the
    intent tells which one held. *)
Lemma classify_cases toLowerCase (q : jsstring) :
  (classify toLowerCase q = image_description /\
   imageRule toLowerCase q = true) \/
  (classify toLowerCase q = text_recommendation /\
   imageRule toLowerCase q = false /\ textRule toLowerCase q = true) \/
  (classify toLowerCase q = general_conversation /\
   imageRule toLowerCase q = false /\ textRule toLowerCase q = false).
Proof.
  unfold classify.
  destruct (imageRule toLowerCase q); [now left|].
  destruct (textRule toLowerCase q); [right; left | right; right]; auto.
Qed.

(** A query whose lowercased text is blank fires neither rule. *)
Lemma blank_fires_no_rule toLowerCase (q : jsstring) :
  forallb isTrimmed (toLowerCase q) = true ->
  classify toLowerCase q = general_conversation.
Proof.
  intros B. apply classify_general.
  - unfold imageRule. cbv zeta.
    rewrite (proj1 (blank_includes _ (u16 "image") 105%N B ltac:(cbn; tauto) eq_refl)).
    rewrite (proj1 (blank_includes _ (u16 "picture") 112%N B ltac:(cbn; tauto) eq_refl)).
    rewrite (proj1 (blank_includes _ (u16 "photo") 112%N B ltac:(cbn; tauto) eq_refl)).
    rewrite (proj1 (blank_includes _ (u16 "looks like") 108%N B ltac:(cbn; tauto) eq_refl)).
    rewrite (proj2 (blank_includes _ (u16 "a ") 97%N B ltac:(cbn; tauto) eq_refl)).
    reflexivity.
  - unfold textRule. cbv zeta.
    rewrite (proj1 (blank_includes _ (u16 "recommend") 114%N B ltac:(cbn; tauto) eq_refl)).
    rewrite (proj1 (blank_includes _ (u16 "search") 115%N B ltac:(cbn; tauto) eq_refl)).
    rewrite (proj1 (blank_includes _ (u16 "find") 102%N B ltac:(cbn; tauto) eq_refl)).
    rewrite (proj1 (blank_includes _ (u16 "show me") 115%N B ltac:(cbn; tauto) eq_refl)).
    rewrite (proj1 (blank_includes _ (u16 "looking for") 108%N B ltac:(cbn; tauto) eq_refl)).
    reflexivity.
Qed.

Example numberToString_twelve :
  numberToString 0 = u16 "0" /\ numberToString 12 = u16 "12".
Proof. split; reflexivity. Qed.

(** The suggestion buttons of the input area land where their labels
    say, with one exception: 'Black running shoes' is listed as
    image-based but has no image trigger. *)
Example classify_suggestions :
  map (classify asciiToLowerCase)
    [u16 "Recommend running shoes"; u16 "Show me t-shirts";
     u16 "Find electronics"; u16 "A blue sports t-shirt";
     u16 "Black running shoes"; u16 "A picture of wireless headphones"]
  = [text_recommendation; text_recommendation; text_recommendation;
     image_description; general_conversation; image_description].
Proof. vm_compute. reflexivity. Qed.

(** An image keyword wins over a recommendation keyword in the same
    text. *)
Example classify_image_over_text :
  textRule asciiToLowerCase (u16 "Find me a PHOTO frame") = true /\
  classify asciiToLowerCase (u16 "Find me a PHOTO frame") = image_description.
Proof. vm_compute. split; reflexivity. Qed.

(** ** The submit handler *)

Lemma guard_split apiStatus (w : World) :
  passesGuard apiStatus w = true ->
  falsy (trim (query (ui w))) = false /\ isLoading (ui w) = false /\
  ApiStatus.is_connected apiStatus = true.
Proof.
  unfold passesGuard. intros H.
  apply andb_true_iff in H as [H H3]. apply andb_true_iff in H as [H1 H2].
  apply negb_true_iff in H1, H2. auto.
Qed.

Ltac open_guard H :=
  let H1 := fresh "Hq" in
  let H2 := fresh "Hl" in
  let H3 := fresh "Hc" in
  destruct (guard_split _ _ H) as (H1 & H2 & H3);
  unfold handleSubmit; rewrite H1, H2, H3; cbn [orb negb].

Ltac run_branch :=
  unfold tryCatchFinally, tryBody, agentBranch, imageBranch,
    recommendBranch, chatBranch, catchBlock, appendBot, bind, axiosPost,
    dataOf, newDate, setMessages, setQuery, setIsLoading, setProducts,
    setLastFeature, setShowProducts, consoleError, updateState, ret, throw;
  cbn [ui sent console clock query messages products isLoading
       lastFeature showProducts agentMode finalWorld completesNormally].

Section HandlerFacts.

Variable toLowerCase : jsstring -> jsstring.
Variable post : Request -> AxiosResult.
Variable now : nat -> jsstring.
Variable apiStatus : ApiStatus.t.

Local Abbreviation submit := (handleSubmit toLowerCase post now apiStatus).
Local Abbreviation guard := (passesGuard apiStatus).

(** A rejected guard leaves the world as it is. *)
Lemma handleSubmit_guard_rejects (w : World) :
  guard w = false -> submit w = Normal tt w.
Proof.
  unfold passesGuard, handleSubmit. intros H.
  destruct (falsy (trim (query (ui w)))); [reflexivity|].
  destruct (isLoading (ui w)); [reflexivity|].
  destruct (ApiStatus.is_connected apiStatus); [discriminate|reflexivity].
Qed.

(** Past the guard exactly one request goes out, the one [route] names. *)
Lemma handleSubmit_sends_route (w : World) :
  guard w = true ->
  sent (finalWorld (submit w)) =
  sent w ++ [route toLowerCase (agentMode (ui w)) (query (ui w))].
Proof.
  intros G. open_guard G. unfold route. run_branch.
  destruct (agentMode (ui w)).
  - run_branch. destruct (post _) as [reason|[d|]]; reflexivity.
  - destruct (classify toLowerCase (query (ui w))); run_branch;
      destruct (post _) as [reason|[d|]]; reflexivity.
Qed.

(** The handler never ends by throwing. *)
Lemma handleSubmit_completes (w : World) :
  completesNormally (submit w) = true.
Proof.
  destruct (guard w) eqn:G.
  - open_guard G. run_branch.
    destruct (agentMode (ui w)).
    + run_branch. destruct (post _) as [reason|[d|]]; reflexivity.
    + destruct (classify toLowerCase (query (ui w))); run_branch;
        destruct (post _) as [reason|[d|]]; reflexivity.
  - now rewrite handleSubmit_guard_rejects.
Qed.

(** A rejected request: the user message and one apology are appended,
    nothing else of the display changes, the error goes to the console. *)
Lemma handleSubmit_rejected (w : World) (reason : jsstring) :
  guard w = true ->
  post (route toLowerCase (agentMode (ui w)) (query (ui w))) = Rejected reason ->
  submit w =
  Normal tt
    (mkWorld
       (mkChatState []
          (messages (ui w) ++
             [mkMessage user (JString (query (ui w))) (now (clock w));
              mkMessage bot (JString apologyText) (now (S (clock w)))])
          (products (ui w)) false (lastFeature (ui w))
          (showProducts (ui w)) (agentMode (ui w)))
       (sent w ++ [route toLowerCase (agentMode (ui w)) (query (ui w))])
       (console w ++ [AxiosError reason])
       (S (S (clock w)))).
Proof.
  intros G. open_guard G. unfold route. run_branch.
  destruct (agentMode (ui w)).
  - run_branch. intros ->. run_branch. now rewrite <- app_assoc.
  - destruct (classify toLowerCase (query (ui w))); run_branch;
      intros ->; run_branch; now rewrite <- app_assoc.
Qed.

(** A reply whose [data] is [null]: the property read throws inside the
    [try], and the outcome is that of a rejection. *)
Lemma handleSubmit_null_data (w : World) :
  guard w = true ->
  post (route toLowerCase (agentMode (ui w)) (query (ui w))) = Resolved None ->
  submit w =
  Normal tt
    (mkWorld
       (mkChatState []
          (messages (ui w) ++
             [mkMessage user (JString (query (ui w))) (now (clock w));
              mkMessage bot (JString apologyText) (now (S (clock w)))])
          (products (ui w)) false (lastFeature (ui w))
          (showProducts (ui w)) (agentMode (ui w)))
       (sent w ++ [route toLowerCase (agentMode (ui w)) (query (ui w))])
       (console w ++ [TypeError])
       (S (S (clock w)))).
Proof.
  intros G. open_guard G. unfold route. run_branch.
  destruct (agentMode (ui w)).
  - run_branch. intros ->. run_branch. now rewrite <- app_assoc.
  - destruct (classify toLowerCase (query (ui w))); run_branch;
      intros ->; run_branch; now rewrite <- app_assoc.
Qed.

(** A reply with data: products, feature tag, visibility and bot message
    are those of the branch taken. *)
Lemma handleSubmit_resolved (w : World) (d : ResponseData) :
  guard w = true ->
  post (route toLowerCase (agentMode (ui w)) (query (ui w))) = Resolved (Some d) ->
  submit w =
  let '(feature, visible, msg) :=
    branchOutcome (agentMode (ui w)) (classify toLowerCase (query (ui w))) d in
  Normal tt
    (mkWorld
       (mkChatState []
          (messages (ui w) ++
             [mkMessage user (JString (query (ui w))) (now (clock w));
              mkMessage bot msg (now (S (clock w)))])
          (productsOrEmpty d) false (Some feature) visible (agentMode (ui w)))
       (sent w ++ [route toLowerCase (agentMode (ui w)) (query (ui w))])
       (console w)
       (S (S (clock w)))).
Proof.
  intros G. open_guard G. unfold route, branchOutcome. run_branch.
  destruct (agentMode (ui w)).
  - run_branch. intros ->. run_branch. now rewrite <- app_assoc.
  - destruct (classify toLowerCase (query (ui w))); run_branch;
      intros ->; run_branch; now rewrite <- app_assoc.
Qed.

End HandlerFacts.

(** ** Claims about the rule chain and the handler *)

(** C1: the image rule comes first. Whenever the lowercased query contains
    "image", "picture", "photo" or "looks like", the intent is
    [image_description] whatever else the text contains, the route is the
    image-search endpoint with the query as description, and a submission
    outside Agent Mode that passes the guard posts exactly that request. *)
Theorem image_rule_takes_priority
    (toLowerCase : jsstring -> jsstring) (q : jsstring) :
  includes (toLowerCase q) (u16 "image") = true \/
  includes (toLowerCase q) (u16 "picture") = true \/
  includes (toLowerCase q) (u16 "photo") = true \/
  includes (toLowerCase q) (u16 "looks like") = true ->
  classify toLowerCase q = image_description /\
  route toLowerCase false q = mkRequest api_image_search (DescriptionBody q) /\
  forall post now apiStatus w,
    query (ui w) = q -> agentMode (ui w) = false ->
    passesGuard apiStatus w = true ->
    sent (finalWorld (handleSubmit toLowerCase post now apiStatus w)) =
    sent w ++ [mkRequest api_image_search (DescriptionBody q)].
Proof.
  intros H.
  assert (I : imageRule toLowerCase q = true).
  { unfold imageRule. cbv zeta.
    destruct H as [H|[H|[H|H]]]; rewrite H; rewrite ?orb_true_r; reflexivity. }
  assert (C := classify_image toLowerCase q I).
  assert (R : route toLowerCase false q =
              mkRequest api_image_search (DescriptionBody q)).
  { unfold route. now rewrite C. }
  repeat split; auto.
  intros post now apiStatus w Hq Ha G.
  rewrite (handleSubmit_sends_route toLowerCase post now apiStatus w G).
  now rewrite Ha, Hq, R.
Qed.

(** The text of [classify_image_over_text] contains "find" as well as
    "photo". *)
Lemma image_rule_takes_priority_witness :
  (includes (asciiToLowerCase (u16 "Find me a PHOTO frame")) (u16 "image") = true \/
   includes (asciiToLowerCase (u16 "Find me a PHOTO frame")) (u16 "picture") = true \/
   includes (asciiToLowerCase (u16 "Find me a PHOTO frame")) (u16 "photo") = true \/
   includes (asciiToLowerCase (u16 "Find me a PHOTO frame")) (u16 "looks like") = true) /\
  includes (asciiToLowerCase (u16 "Find me a PHOTO frame")) (u16 "find") = true /\
  classify asciiToLowerCase (u16 "Find me a PHOTO frame") = image_description.
Proof.
  split; [right; right; left; vm_compute; reflexivity|].
  split; [vm_compute; reflexivity|].
  apply (image_rule_takes_priority asciiToLowerCase (u16 "Find me a PHOTO frame")).
  right; right; left. vm_compute. reflexivity.
Defined.

(** C3, as the code has it: a lowercased query that starts with "a " is
    [image_description], and so is "A blue sports t-shirt"; "an " is not
    among the triggers: a query whose lowercased text starts with "an "
    is [image_description] only if it contains "image", "picture",
    "photo" or "looks like". *)
Theorem leading_article_a_is_image
    (toLowerCase : jsstring -> jsstring) (q : jsstring) :
  (startsWith (toLowerCase q) (u16 "a ") = true ->
   classify toLowerCase q = image_description) /\
  (startsWith (toLowerCase q) (u16 "an ") = true ->
   classify toLowerCase q = image_description ->
   includes (toLowerCase q) (u16 "image") = true \/
   includes (toLowerCase q) (u16 "picture") = true \/
   includes (toLowerCase q) (u16 "photo") = true \/
   includes (toLowerCase q) (u16 "looks like") = true) /\
  classify asciiToLowerCase (u16 "A blue sports t-shirt") = image_description.
Proof.
  split; [|split].
  - intros H. apply classify_image. unfold imageRule. cbv zeta.
    rewrite H. now rewrite !orb_true_r.
  - intros An C.
    assert (A : startsWith (toLowerCase q) (u16 "a ") = false).
    { destruct (toLowerCase q) as [|c1 [|c2 s]]; cbn in An |- *;
        rewrite ?andb_false_r in An; try discriminate.
      apply andb_true_iff in An as [_ An]. apply andb_true_iff in An as [An _].
      apply N.eqb_eq in An. subst c2. cbn. now rewrite andb_false_r. }
    destruct (classify_cases toLowerCase q) as [[_ I]|[[T _]|[G _]]];
      [|congruence|congruence].
    unfold imageRule in I. cbv zeta in I. rewrite A, orb_false_r in I.
    repeat (apply orb_true_iff in I as [I|I]); auto.
  - vm_compute. reflexivity.
Qed.

Lemma leading_article_a_is_image_witness :
  startsWith (asciiToLowerCase (u16 "A blue sports t-shirt")) (u16 "a ") = true /\
  classify asciiToLowerCase (u16 "A blue sports t-shirt") = image_description /\
  startsWith (asciiToLowerCase (u16 "An image of a red hat")) (u16 "an ") = true /\
  classify asciiToLowerCase (u16 "An image of a red hat") = image_description /\
  (includes (asciiToLowerCase (u16 "An image of a red hat")) (u16 "image") = true \/
   includes (asciiToLowerCase (u16 "An image of a red hat")) (u16 "picture") = true \/
   includes (asciiToLowerCase (u16 "An image of a red hat")) (u16 "photo") = true \/
   includes (asciiToLowerCase (u16 "An image of a red hat")) (u16 "looks like") = true).
Proof.
  split; [vm_compute; reflexivity|].
  split.
  { apply (proj1 (leading_article_a_is_image asciiToLowerCase
                    (u16 "A blue sports t-shirt"))).
    vm_compute. reflexivity. }
  split; [vm_compute; reflexivity|].
  split; [vm_compute; reflexivity|].
  apply (proj1 (proj2 (leading_article_a_is_image asciiToLowerCase
                         (u16 "An image of a red hat")))).
  - vm_compute. reflexivity.
  - vm_compute. reflexivity.
Defined.

(** C3 as stated fails: "an orange hoodie" starts with "an ", has no image
    keyword, and falls through to general conversation. *)
Lemma leading_article_an_is_not_image :
  startsWith (asciiToLowerCase (u16 "an orange hoodie")) (u16 "an ") = true /\
  includes (asciiToLowerCase (u16 "an orange hoodie")) (u16 "image") = false /\
  includes (asciiToLowerCase (u16 "an orange hoodie")) (u16 "picture") = false /\
  includes (asciiToLowerCase (u16 "an orange hoodie")) (u16 "photo") = false /\
  includes (asciiToLowerCase (u16 "an orange hoodie")) (u16 "looks like") = false /\
  classify asciiToLowerCase (u16 "an orange hoodie") = general_conversation /\
  classify asciiToLowerCase (u16 "an orange hoodie") <> image_description /\
  route asciiToLowerCase false (u16 "an orange hoodie") =
    mkRequest api_chat (QueryBody (u16 "an orange hoodie")).
Proof.
  repeat split; try (vm_compute; reflexivity).
  vm_compute. discriminate.
Qed.

(** C6: a query that the image rule does not take and whose lowercased
    text contains "recommend", "search", "find", "show me" or
    "looking for" is [text_recommendation] and is routed to the recommend
    endpoint. *)
Theorem text_rule_after_image_rule
    (toLowerCase : jsstring -> jsstring) (q : jsstring) :
  imageRule toLowerCase q = false ->
  includes (toLowerCase q) (u16 "recommend") = true \/
  includes (toLowerCase q) (u16 "search") = true \/
  includes (toLowerCase q) (u16 "find") = true \/
  includes (toLowerCase q) (u16 "show me") = true \/
  includes (toLowerCase q) (u16 "looking for") = true ->
  classify toLowerCase q = text_recommendation /\
  route toLowerCase false q = mkRequest api_recommend (QueryBody q) /\
  forall post now apiStatus w,
    query (ui w) = q -> agentMode (ui w) = false ->
    passesGuard apiStatus w = true ->
    sent (finalWorld (handleSubmit toLowerCase post now apiStatus w)) =
    sent w ++ [mkRequest api_recommend (QueryBody q)].
Proof.
  intros I H.
  assert (T : textRule toLowerCase q = true).
  { unfold textRule. cbv zeta.
    destruct H as [H|[H|[H|[H|H]]]]; rewrite H; rewrite ?orb_true_r; reflexivity. }
  assert (C := classify_text toLowerCase q I T).
  assert (R : route toLowerCase false q = mkRequest api_recommend (QueryBody q)).
  { unfold route. now rewrite C. }
  repeat split; auto.
  intros post now apiStatus w Hq Ha G.
  rewrite (handleSubmit_sends_route toLowerCase post now apiStatus w G).
  now rewrite Ha, Hq, R.
Qed.

Lemma text_rule_after_image_rule_witness :
  imageRule asciiToLowerCase (u16 "Recommend me a t-shirt for sports") = false /\
  includes (asciiToLowerCase (u16 "Recommend me a t-shirt for sports"))
    (u16 "recommend") = true /\
  classify asciiToLowerCase (u16 "Recommend me a t-shirt for sports")
    = text_recommendation.
Proof.
  split; [vm_compute; reflexivity|].
  split; [vm_compute; reflexivity|].
  apply (text_rule_after_image_rule asciiToLowerCase
           (u16 "Recommend me a t-shirt for sports")).
  - vm_compute. reflexivity.
  - left. vm_compute. reflexivity.
Defined.

(** C7: an empty or whitespace-only query short-circuits. The handler
    returns at its guard without throwing and leaves the whole world as
    it was: no request is sent (so no endpoint ever runs a match), no
    message is added, the products stay; the Send button is disabled for
    such a query as well. Such a text fires neither the image rule nor
    the text rule: the rule chain has only its default left for it. *)
Theorem blank_query_short_circuits
    (toLowerCase : jsstring -> jsstring) (post : Request -> AxiosResult)
    (now : nat -> jsstring) (apiStatus : ApiStatus.t) (w : World) :
  forallb isTrimmed (query (ui w)) = true ->
  handleSubmit toLowerCase post now apiStatus w = Normal tt w /\
  sent (finalWorld (handleSubmit toLowerCase post now apiStatus w)) = sent w /\
  sendDisabled apiStatus (isLoading (ui w)) (query (ui w)) = true /\
  (forallb isTrimmed (toLowerCase (query (ui w))) = true ->
   classify toLowerCase (query (ui w)) = general_conversation).
Proof.
  intros H. apply trim_whitespace_only in H.
  assert (E : handleSubmit toLowerCase post now apiStatus w = Normal tt w).
  { unfold handleSubmit. now rewrite H. }
  split; [exact E|]. split; [|split].
  - now rewrite E.
  - unfold sendDisabled. rewrite H. now rewrite orb_true_r.
  - apply blank_fires_no_rule.
Qed.

Lemma blank_query_short_circuits_witness :
  forallb isTrimmed (query (ui (Sample.typed [32; 9; 160; 10]%N false))) = true /\
  handleSubmit asciiToLowerCase Sample.shop Sample.time ApiStatus.connected
    (Sample.typed [32; 9; 160; 10]%N false)
  = Normal tt (Sample.typed [32; 9; 160; 10]%N false).
Proof.
  split; [vm_compute; reflexivity|].
  apply (blank_query_short_circuits asciiToLowerCase Sample.shop Sample.time
           ApiStatus.connected (Sample.typed [32; 9; 160; 10]%N false)).
  vm_compute. reflexivity.
Defined.



(** C9: a failed request is absorbed. When the request of a submission is
    rejected, the handler completes normally; the conversation grows by
    the user's message followed by exactly one bot message, the apology;
    the products on display are the ones from before; loading is off
    again. *)
Theorem rejected_request_is_absorbed
    (toLowerCase : jsstring -> jsstring) (post : Request -> AxiosResult)
    (now : nat -> jsstring) (apiStatus : ApiStatus.t) (w : World)
    (reason : jsstring) :
  passesGuard apiStatus w = true ->
  post (route toLowerCase (agentMode (ui w)) (query (ui w))) = Rejected reason ->
  exists w',
    handleSubmit toLowerCase post now apiStatus w = Normal tt w' /\
    messages (ui w') =
      messages (ui w) ++
        [mkMessage user (JString (query (ui w))) (now (clock w));
         mkMessage bot (JString apologyText) (now (S (clock w)))] /\
    products (ui w') = products (ui w) /\
    showProducts (ui w') = showProducts (ui w) /\
    lastFeature (ui w') = lastFeature (ui w) /\
    isLoading (ui w') = false /\
    console w' = console w ++ [AxiosError reason].
Proof.
  intros G R.
  eexists. split.
  - apply (handleSubmit_rejected toLowerCase post now apiStatus w reason G R).
  - cbn. repeat split; reflexivity.
Qed.

Lemma rejected_request_is_absorbed_witness :
  passesGuard ApiStatus.connected (Sample.typed (u16 "Show me t-shirts") false) = true /\
  Sample.offline (route asciiToLowerCase false (u16 "Show me t-shirts"))
    = Rejected (u16 "Network Error") /\
  exists w',
    handleSubmit asciiToLowerCase Sample.offline Sample.time ApiStatus.connected
      (Sample.typed (u16 "Show me t-shirts") false) = Normal tt w' /\
    messages (ui w') =
      [mkMessage user (JString (u16 "Show me t-shirts")) (Sample.time 0);
       mkMessage bot (JString apologyText) (Sample.time 1)] /\
    products (ui w') = [Sample.tshirt].
Proof.
  split; [vm_compute; reflexivity|].
  split; [reflexivity|].
  destruct (rejected_request_is_absorbed asciiToLowerCase Sample.offline
              Sample.time ApiStatus.connected
              (Sample.typed (u16 "Show me t-shirts") false)
              (u16 "Network Error"))
    as (w' & E & M & P & _).
  - vm_compute. reflexivity.
  - reflexivity.
  - exists w'. repeat split; assumption.
Defined.

(** C4 as stated fails: Agent Mode changes the route. "Find electronics"
    goes to the recommend endpoint without Agent Mode and to the agent
    endpoint with it, and against the sample shop the products shown
    differ as well. *)
Lemma agent_mode_changes_route :
  route asciiToLowerCase false (u16 "Find electronics")
    = mkRequest api_recommend (QueryBody (u16 "Find electronics")) /\
  route asciiToLowerCase true (u16 "Find electronics")
    = mkRequest api_agent_chat (QueryBody (u16 "Find electronics")) /\
  sent (finalWorld (handleSubmit asciiToLowerCase Sample.shop Sample.time
          ApiStatus.connected (Sample.typed (u16 "Find electronics") false)))
  <> sent (finalWorld (handleSubmit asciiToLowerCase Sample.shop Sample.time
          ApiStatus.connected (Sample.typed (u16 "Find electronics") true))) /\
  products (ui (finalWorld (handleSubmit asciiToLowerCase Sample.shop Sample.time
          ApiStatus.connected (Sample.typed (u16 "Find electronics") false))))
    = [Sample.tshirt] /\
  products (ui (finalWorld (handleSubmit asciiToLowerCase Sample.shop Sample.time
          ApiStatus.connected (Sample.typed (u16 "Find electronics") true))))
    = [].
Proof.
  repeat split; try (vm_compute; reflexivity).
  vm_compute. discriminate.
Qed.

(** C4, as the code has it: in Agent Mode the intent rules are bypassed.
    Every submission that passes the guard posts the query to the agent
    endpoint, whatever its text; the products shown are those of that
    reply; and the bot message is the Agent Mode header, then the
    formatted agent response, then the product-count sentence. *)
Theorem agent_mode_bypasses_rules
    (toLowerCase : jsstring -> jsstring) (post : Request -> AxiosResult)
    (now : nat -> jsstring) (apiStatus : ApiStatus.t) (w : World)
    (d : ResponseData) :
  passesGuard apiStatus w = true ->
  agentMode (ui w) = true ->
  post (agentRequest (query (ui w))) = Resolved (Some d) ->
  exists w',
    handleSubmit toLowerCase post now apiStatus w = Normal tt w' /\
    sent w' = sent w ++ [mkRequest api_agent_chat (QueryBody (query (ui w)))] /\
    products (ui w') = productsOrEmpty d /\
    lastFeature (ui w') = Some agent /\
    showProducts (ui w') = hasProducts d /\
    messages (ui w') =
      messages (ui w) ++
        [mkMessage user (JString (query (ui w))) (now (clock w));
         mkMessage bot
           (JString (agentHeader ++ formatGeminiResponse (response d)
                       ++ agentProductsText d))
           (now (S (clock w)))].
Proof.
  intros G A R.
  assert (E := handleSubmit_resolved toLowerCase post now apiStatus w d G).
  unfold route, branchOutcome in E. rewrite A in E. specialize (E R).
  cbv zeta in E. eexists. split; [exact E|].
  cbn. repeat split; reflexivity.
Qed.

Lemma agent_mode_bypasses_rules_witness :
  passesGuard ApiStatus.connected (Sample.typed (u16 "Find electronics") true) = true /\
  agentMode (ui (Sample.typed (u16 "Find electronics") true)) = true /\
  exists w',
    handleSubmit asciiToLowerCase Sample.shop Sample.time ApiStatus.connected
      (Sample.typed (u16 "Find electronics") true) = Normal tt w' /\
    sent w' = [mkRequest api_agent_chat (QueryBody (u16 "Find electronics"))] /\
    products (ui w') = [].
Proof.
  split; [vm_compute; reflexivity|].
  split; [reflexivity|].
  destruct (agent_mode_bypasses_rules asciiToLowerCase Sample.shop Sample.time
              ApiStatus.connected (Sample.typed (u16 "Find electronics") true)
              (mkData (JString (u16 "* Try a mat")) (Some [])))
    as (w' & E & S & P & _).
  - vm_compute. reflexivity.
  - reflexivity.
  - reflexivity.
  - exists w'. repeat split; assumption.
Defined.




(** ** [formatGeminiResponse] *)

Lemma noStar_app (s t : jsstring) : noStar s -> noStar t -> noStar (s ++ t).
Proof. unfold noStar. intros. apply Forall_app. auto. Qed.

Lemma noStar_literal_br : noStar (u16 "<br/>").
Proof. unfold noStar. repeat constructor; discriminate. Qed.

Lemma noStar_literal_br2 : noStar (u16 "<br/><br/>").
Proof. unfold noStar. repeat constructor; discriminate. Qed.

Lemma removeAsterisks_noStar (s : jsstring) : noStar (removeAsterisks s).
Proof.
  unfold noStar, removeAsterisks. apply Forall_forall.
  intros c H. apply filter_In in H as [_ H].
  apply negb_true_iff in H. now apply N.eqb_neq.
Qed.

(** The scan looks two units ahead, so the induction carries the
    statement for a list and for the list with one more unit in front. *)
Lemma replaceDoubleNewline_noStar_aux (s : jsstring) :
  (noStar s -> noStar (replaceDoubleNewline s)) /\
  (forall c, noStar (c :: s) -> noStar (replaceDoubleNewline (c :: s))).
Proof.
  induction s as [|d s [IH1 IH2]].
  - split; intros; simpl; assumption.
  - split; [apply IH2|].
    intros c H. inversion H as [|? ? Hc Hds]; subst.
    change (replaceDoubleNewline (c :: d :: s)) with
      (if N.eqb c 10 && N.eqb d 10
       then u16 "<br/><br/>" ++ replaceDoubleNewline s
       else c :: replaceDoubleNewline (d :: s)).
    destruct (N.eqb c 10 && N.eqb d 10).
    + apply noStar_app; [apply noStar_literal_br2|].
      apply IH1. now inversion Hds.
    + constructor; [assumption|]. now apply IH2.
Qed.

Lemma replaceDoubleNewline_noStar (s : jsstring) :
  noStar s -> noStar (replaceDoubleNewline s).
Proof. apply replaceDoubleNewline_noStar_aux. Qed.

Lemma replaceNewline_noStar (s : jsstring) :
  noStar s -> noStar (replaceNewline s).
Proof.
  unfold replaceNewline. induction 1 as [|c s Hc Hs IH]; simpl.
  - constructor.
  - apply noStar_app; [|exact IH].
    destruct (N.eqb c 10); [apply noStar_literal_br|].
    constructor; [assumption|constructor].
Qed.

Lemma replaceDoubleNewline_cons_other (c : N) (s : jsstring) :
  N.eqb c 10 = false ->
  replaceDoubleNewline (c :: s) = c :: replaceDoubleNewline s.
Proof. intros H. destruct s; simpl; rewrite ?H; reflexivity. Qed.

(** A "* " at the very start of the text becomes the bullet. *)
Lemma formatGeminiResponse_leading_bullet (s : jsstring) :
  formatGeminiResponse (JString (42 :: 32 :: s)%N) =
  (8226 :: 32 ::
     replaceNewline (replaceDoubleNewline
       (removeAsterisks (replaceLeadingStar false s))))%N.
Proof.
  unfold formatGeminiResponse. cbn [falsy].
  change (replaceLeadingStar true (42 :: 32 :: s)%N)
    with (8226 :: 32 :: replaceLeadingStar false s)%N.
  change (removeAsterisks (8226 :: 32 :: replaceLeadingStar false s)%N)
    with (8226 :: 32 :: removeAsterisks (replaceLeadingStar false s))%N.
  rewrite !replaceDoubleNewline_cons_other by reflexivity.
  reflexivity.
Qed.

Lemma replaceNewline_app (s t : jsstring) :
  replaceNewline (s ++ t) = replaceNewline s ++ replaceNewline t.
Proof. unfold replaceNewline. apply flat_map_app. Qed.

Lemma removeAsterisks_app (s t : jsstring) :
  removeAsterisks (s ++ t) = removeAsterisks s ++ removeAsterisks t.
Proof. unfold removeAsterisks. apply filter_app. Qed.

(** The paired replacement changes nothing the single one would not do:
    two line feeds come out as two break tags either way. *)
Lemma replaceDoubleNewline_absorbed_aux (s : jsstring) :
  replaceNewline (replaceDoubleNewline s) = replaceNewline s /\
  forall c, replaceNewline (replaceDoubleNewline (c :: s))
            = replaceNewline (c :: s).
Proof.
  induction s as [|d s [IH1 IH2]].
  - split; [reflexivity|]. intros c. reflexivity.
  - split; [apply IH2|].
    intros c.
    change (replaceDoubleNewline (c :: d :: s)) with
      (if N.eqb c 10 && N.eqb d 10
       then u16 "<br/><br/>" ++ replaceDoubleNewline s
       else c :: replaceDoubleNewline (d :: s)).
    destruct (N.eqb c 10) eqn:Ec; destruct (N.eqb d 10) eqn:Ed; cbn [andb].
    + apply N.eqb_eq in Ec, Ed. subst c d.
      rewrite replaceNewline_app, IH1. reflexivity.
    + change (replaceNewline (c :: replaceDoubleNewline (d :: s)))
        with ((if N.eqb c 10 then u16 "<br/>" else [c])
                ++ replaceNewline (replaceDoubleNewline (d :: s))).
      rewrite IH2. reflexivity.
    + change (replaceNewline (c :: replaceDoubleNewline (d :: s)))
        with ((if N.eqb c 10 then u16 "<br/>" else [c])
                ++ replaceNewline (replaceDoubleNewline (d :: s))).
      rewrite IH2. reflexivity.
    + change (replaceNewline (c :: replaceDoubleNewline (d :: s)))
        with ((if N.eqb c 10 then u16 "<br/>" else [c])
                ++ replaceNewline (replaceDoubleNewline (d :: s))).
      rewrite IH2. reflexivity.
Qed.

Lemma formatGeminiResponse_core (s : jsstring) :
  formatGeminiResponse (JString s) =
  replaceNewline (removeAsterisks (replaceLeadingStar true s)).
Proof.
  unfold formatGeminiResponse. destruct s as [|c s]; [reflexivity|].
  cbn [falsy]. apply replaceDoubleNewline_absorbed_aux.
Qed.

Lemma replaceNewline_clean (s : jsstring) :
  ~ In 10%N s -> replaceNewline s = s.
Proof.
  unfold replaceNewline. induction s as [|c s IH]; intros H; [reflexivity|].
  simpl. destruct (N.eqb_spec c 10) as [->|Hc].
  - exfalso. apply H. now left.
  - simpl. rewrite IH; [reflexivity|]. intros I. apply H. now right.
Qed.

Lemma lineTerminator_not_star (t : N) :
  isLineTerminator t = true -> N.eqb t 42 = false /\ N.eqb t 32 = false.
Proof.
  unfold isLineTerminator. intros H.
  repeat (apply orb_true_iff in H as [H|H]);
    apply N.eqb_eq in H; subst t; split; reflexivity.
Qed.

(** The bullet pass never swallows a line break: the scan of what
    follows a line terminator starts afresh at a line start. *)
Lemma replaceLeadingStar_line_break_aux (t : N) (rest a : jsstring) :
  isLineTerminator t = true ->
  (forall b, replaceLeadingStar b (a ++ t :: rest)
             = replaceLeadingStar b (a ++ [t]) ++ replaceLeadingStar true rest) /\
  (forall c b, replaceLeadingStar b (c :: a ++ t :: rest)
               = replaceLeadingStar b (c :: a ++ [t])
                 ++ replaceLeadingStar true rest).
Proof.
  intros T. destruct (lineTerminator_not_star t T) as [T42 T32].
  assert (Base : forall b, replaceLeadingStar b (t :: rest)
                 = replaceLeadingStar b [t] ++ replaceLeadingStar true rest).
  { intros b. destruct rest as [|d r].
    - reflexivity.
    - change (replaceLeadingStar b (t :: d :: r)) with
        (if b && N.eqb t 42 && N.eqb d 32
         then (8226 :: 32 :: replaceLeadingStar false r)%N
         else t :: replaceLeadingStar (isLineTerminator t) (d :: r)).
      rewrite T42, andb_false_r. cbn [andb]. rewrite T. reflexivity. }
  induction a as [|d a [IH1 IH2]].
  - split; [exact Base|].
    intros c b. cbn [app].
    change (replaceLeadingStar b (c :: t :: rest)) with
      (if b && N.eqb c 42 && N.eqb t 32
       then (8226 :: 32 :: replaceLeadingStar false rest)%N
       else c :: replaceLeadingStar (isLineTerminator c) (t :: rest)).
    change (replaceLeadingStar b [c; t]) with
      (if b && N.eqb c 42 && N.eqb t 32
       then (8226 :: 32 :: replaceLeadingStar false [])%N
       else c :: replaceLeadingStar (isLineTerminator c) [t]).
    rewrite T32, andb_false_r. rewrite Base. reflexivity.
  - split; [intros b; apply IH2|].
    intros c b. cbn [app].
    change (replaceLeadingStar b (c :: d :: a ++ t :: rest)) with
      (if b && N.eqb c 42 && N.eqb d 32
       then (8226 :: 32 :: replaceLeadingStar false (a ++ t :: rest))%N
       else c :: replaceLeadingStar (isLineTerminator c) (d :: a ++ t :: rest)).
    change (replaceLeadingStar b (c :: d :: a ++ [t])) with
      (if b && N.eqb c 42 && N.eqb d 32
       then (8226 :: 32 :: replaceLeadingStar false (a ++ [t]))%N
       else c :: replaceLeadingStar (isLineTerminator c) (d :: a ++ [t])).
    destruct (b && N.eqb c 42 && N.eqb d 32).
    + rewrite IH1. reflexivity.
    + rewrite IH2. reflexivity.
Qed.

(** A line terminator at the end of the text is passed on as it is. *)
Lemma replaceLeadingStar_snoc_terminator (t : N) (a : jsstring) :
  isLineTerminator t = true ->
  (forall b, replaceLeadingStar b (a ++ [t]) = replaceLeadingStar b a ++ [t]) /\
  (forall c b, replaceLeadingStar b (c :: a ++ [t])
               = replaceLeadingStar b (c :: a) ++ [t]).
Proof.
  intros T. destruct (lineTerminator_not_star t T) as [T42 T32].
  induction a as [|d a [IH1 IH2]].
  - split; [reflexivity|].
    intros c b. cbn [app].
    change (replaceLeadingStar b [c; t]) with
      (if b && N.eqb c 42 && N.eqb t 32
       then (8226 :: 32 :: replaceLeadingStar false [])%N
       else c :: replaceLeadingStar (isLineTerminator c) [t]).
    rewrite T32, andb_false_r. reflexivity.
  - split; [intros b; apply IH2|].
    intros c b. cbn [app].
    change (replaceLeadingStar b (c :: d :: a ++ [t])) with
      (if b && N.eqb c 42 && N.eqb d 32
       then (8226 :: 32 :: replaceLeadingStar false (a ++ [t]))%N
       else c :: replaceLeadingStar (isLineTerminator c) (d :: a ++ [t])).
    change (replaceLeadingStar b (c :: d :: a)) with
      (if b && N.eqb c 42 && N.eqb d 32
       then (8226 :: 32 :: replaceLeadingStar false a)%N
       else c :: replaceLeadingStar (isLineTerminator c) (d :: a)).
    destruct (b && N.eqb c 42 && N.eqb d 32).
    + rewrite IH1. reflexivity.
    + rewrite IH2. reflexivity.
Qed.

(** Inside a line, away from its start, the bullet pass changes
    nothing. *)
Lemma replaceLeadingStar_inside_line (l : jsstring) :
  Forall (fun c => isLineTerminator c = false) l ->
  replaceLeadingStar false l = l.
Proof.
  induction 1 as [|c l Hc Hl IH]; [reflexivity|].
  destruct l as [|d l']; [reflexivity|].
  change (replaceLeadingStar false (c :: d :: l')) with
    (c :: replaceLeadingStar (isLineTerminator c) (d :: l')).
  now rewrite Hc, IH.
Qed.

Lemma line_has_no_line_feed (l : jsstring) :
  Forall (fun c => isLineTerminator c = false) l -> ~ In 10%N l.
Proof.
  intros F H. rewrite Forall_forall in F. specialize (F _ H). discriminate.
Qed.

Lemma removeAsterisks_In (c : N) (l : jsstring) :
  In c (removeAsterisks l) -> In c l.
Proof. unfold removeAsterisks. intros H. now apply filter_In in H. Qed.

(** Formatting goes line by line: what follows a line terminator is
    formatted as a text of its own. *)
Lemma formatGeminiResponse_by_line (a rest : jsstring) (t : N) :
  isLineTerminator t = true ->
  formatGeminiResponse (JString (a ++ t :: rest)) =
  formatGeminiResponse (JString a) ++ replaceNewline [t]
    ++ formatGeminiResponse (JString rest).
Proof.
  intros T. destruct (lineTerminator_not_star t T) as [T42 _].
  rewrite !formatGeminiResponse_core.
  rewrite (proj1 (replaceLeadingStar_line_break_aux t rest a T)).
  rewrite (proj1 (replaceLeadingStar_snoc_terminator t a T)).
  rewrite !removeAsterisks_app, !replaceNewline_app, <- app_assoc.
  f_equal. f_equal.
  unfold removeAsterisks. cbn [filter]. now rewrite T42.
Qed.

(** A line that starts with "* ": the bullet, then the rest without its
    asterisks. *)
Lemma formatGeminiResponse_bullet_line (l : jsstring) :
  Forall (fun c => isLineTerminator c = false) l ->
  formatGeminiResponse (JString (42 :: 32 :: l)%N)
  = (8226 :: 32 :: removeAsterisks l)%N.
Proof.
  intros F. rewrite formatGeminiResponse_core.
  change (replaceLeadingStar true (42 :: 32 :: l)%N)
    with (8226 :: 32 :: replaceLeadingStar false l)%N.
  rewrite (replaceLeadingStar_inside_line l F).
  change (removeAsterisks (8226 :: 32 :: l)%N)
    with (8226 :: 32 :: removeAsterisks l)%N.
  apply replaceNewline_clean.
  intros [H|[H|H]]; try discriminate.
  apply removeAsterisks_In in H. now apply (line_has_no_line_feed l F).
Qed.

(** A line that does not start with "* ": its asterisks removed, nothing
    else. *)
Lemma formatGeminiResponse_plain_line (l : jsstring) :
  Forall (fun c => isLineTerminator c = false) l ->
  startsWith l (u16 "* ") = false ->
  formatGeminiResponse (JString l) = removeAsterisks l.
Proof.
  intros F S. rewrite formatGeminiResponse_core.
  assert (E : replaceLeadingStar true l = l).
  { destruct l as [|c [|d l']]; try reflexivity.
    change (replaceLeadingStar true (c :: d :: l')) with
      (if true && N.eqb c 42 && N.eqb d 32
       then (8226 :: 32 :: replaceLeadingStar false l')%N
       else c :: replaceLeadingStar (isLineTerminator c) (d :: l')).
    cbn in S. rewrite andb_true_r in S. cbn [andb]. rewrite S.
    inversion F as [|? ? Hc Hl]; subst.
    now rewrite Hc, (replaceLeadingStar_inside_line (d :: l') Hl). }
  rewrite E. apply replaceNewline_clean.
  intros H. apply removeAsterisks_In in H.
  now apply (line_has_no_line_feed l F).
Qed.

(** Bullets at the start of every line, emphasis stars dropped, line
    breaks turned into markup. *)
Example formatGeminiResponse_list :
  formatGeminiResponse (JString (u16 "* **Mat**" ++ [10]%N ++ u16 "* 2 * 3"))
  = ([8226]%N ++ u16 " Mat<br/>" ++ [8226]%N ++ u16 " 2  3").
Proof. vm_compute. reflexivity. Qed.

(** C10: [formatGeminiResponse] is a total function of its argument that
    gives the empty string for [null], [undefined] and the empty string,
    and whose result for a string never contains '*' (code unit 42).
    Every leading "* " becomes the bullet: the one at the start of the
    text and the one after any line terminator, where the text before
    and the text after are formatted independently of each other. Within
    a line nothing else happens to asterisks than their removal: a line
    that starts with "* " comes out as the bullet, a space and the rest
    without its asterisks, and a line that does not comes out without
    its asterisks. *)
Theorem formatGeminiResponse_has_no_asterisk :
  formatGeminiResponse JNull = [] /\
  formatGeminiResponse JUndefined = [] /\
  formatGeminiResponse (JString []) = [] /\
  (forall s : jsstring, ~ In 42%N (formatGeminiResponse (JString s))) /\
  (forall s : jsstring,
     exists rest, formatGeminiResponse (JString (42 :: 32 :: s)%N)
                  = (8226 :: 32 :: rest)%N) /\
  (forall (a s : jsstring) (t : N),
     isLineTerminator t = true ->
     exists rest,
       formatGeminiResponse (JString (a ++ t :: 42 :: 32 :: s)%N)
       = formatGeminiResponse (JString a) ++ replaceNewline [t]
           ++ (8226 :: 32 :: rest)%N) /\
  (forall (a rest : jsstring) (t : N),
     isLineTerminator t = true ->
     formatGeminiResponse (JString (a ++ t :: rest))
     = formatGeminiResponse (JString a) ++ replaceNewline [t]
         ++ formatGeminiResponse (JString rest)) /\
  (forall l : jsstring,
     Forall (fun c => isLineTerminator c = false) l ->
     formatGeminiResponse (JString (42 :: 32 :: l)%N)
     = (8226 :: 32 :: removeAsterisks l)%N) /\
  (forall l : jsstring,
     Forall (fun c => isLineTerminator c = false) l ->
     startsWith l (u16 "* ") = false ->
     formatGeminiResponse (JString l) = removeAsterisks l).
Proof.
  do 3 (split; [reflexivity|]).
  split; [|split; [|split; [|split; [|split]]]].
  - intros s H.
    assert (F : noStar (formatGeminiResponse (JString s))).
    { unfold formatGeminiResponse. destruct (falsy s); [constructor|].
      apply replaceNewline_noStar, replaceDoubleNewline_noStar,
        removeAsterisks_noStar. }
    unfold noStar in F. rewrite Forall_forall in F.
    now apply (F _ H).
  - intros s. eexists. apply formatGeminiResponse_leading_bullet.
  - intros a s t T. eexists.
    rewrite (formatGeminiResponse_by_line a (42 :: 32 :: s)%N t T).
    now rewrite formatGeminiResponse_leading_bullet.
  - intros a rest t T. now apply formatGeminiResponse_by_line.
  - apply formatGeminiResponse_bullet_line.
  - apply formatGeminiResponse_plain_line.
Qed.

(** ** The fallback chain *)

Module MatcherFacts.
Import Matcher.
Local Open Scope nat_scope.

Lemma insertResult_length (r : MatchResult) (l : list MatchResult) :
  List.length (insertResult r l) = S (List.length l).
Proof.
  induction l as [|x l IH]; simpl; [reflexivity|].
  destruct (precedes r x); simpl; [reflexivity|]. now rewrite IH.
Qed.

(** Ranking reorders; it neither drops nor adds results. *)
Lemma rank_length (l : list MatchResult) :
  List.length (rank l) = List.length l.
Proof.
  unfold rank. induction l as [|r l IH]; simpl; [reflexivity|].
  now rewrite insertResult_length, IH.
Qed.

Lemma insertById_length (p : Product) (l : list Product) :
  List.length (insertById p l) = S (List.length l).
Proof.
  induction l as [|x l IH]; simpl; [reflexivity|].
  destruct (N.leb (id p) (id x)); simpl; [reflexivity|]. now rewrite IH.
Qed.

Lemma sortById_length (l : list Product) :
  List.length (sortById l) = List.length l.
Proof.
  unfold sortById. induction l as [|p l IH]; simpl; [reflexivity|].
  now rewrite insertById_length, IH.
Qed.

Lemma nonEmpty_length {A} (l : list A) :
  nonEmpty l = true <-> 0 < List.length l.
Proof. destruct l; simpl; split; intros; try lia; congruence. Qed.

Lemma length_zero_nil {A} (l : list A) : List.length l = 0 -> l = [].
Proof. destruct l; [reflexivity|discriminate]. Qed.

Section ChainFacts.

Variable similarity : Query -> Product -> Q.
Variable tau_semantic uniformScore : Q.
Variable toLowerCase : jsstring -> jsstring.

Local Abbreviation chain :=
  (fallbackChain similarity tau_semantic uniformScore toLowerCase).
Local Abbreviation matcher :=
  (match_ similarity tau_semantic uniformScore toLowerCase).

Lemma defaultStage_length (catalog : list Product) (n : nat) :
  List.length (defaultStage catalog n) = Nat.min n (List.length catalog).
Proof.
  unfold defaultStage.
  now rewrite length_map, length_firstn, sortById_length.
Qed.

(** With products in the catalog and room for one result, some stage of
    the chain delivers. *)
Lemma fallbackChain_delivers (q : Query) (catalog : list Product) (topN : nat) :
  0 < List.length catalog -> 0 < topN ->
  0 < List.length (chain q catalog topN).
Proof.
  intros Hc Hn. unfold fallbackChain. cbv zeta.
  destruct (nonEmpty (semanticStage _ _ _ _)) eqn:E1;
    [now apply nonEmpty_length|].
  destruct (nonEmpty (keywordStage _ _ _)) eqn:E2;
    [now apply nonEmpty_length|].
  destruct (nonEmpty (categoryStage _ _ _)) eqn:E3;
    [now apply nonEmpty_length|].
  rewrite defaultStage_length. lia.
Qed.

(** Every stage draws from the catalog: nothing comes out of an empty
    one. *)
Lemma fallbackChain_empty_catalog (q : Query) (topN : nat) :
  chain q [] topN = [].
Proof.
  unfold fallbackChain, semanticStage, keywordStage, categoryStage,
    defaultStage. simpl. now rewrite firstn_nil.
Qed.

(** The contract's bound on the number of results. *)
Lemma match_length_bound (q : Query) (catalog : list Product) (topN : nat) :
  List.length (matcher q catalog topN) <= topN.
Proof. unfold match_. rewrite length_firstn. lia. Qed.

End ChainFacts.

(** C2 as stated fails for [topN = 0]: the contract bounds the result by
    [topN], so a caller asking for zero results gets none even from a
    catalog with products. *)
Lemma match_topN_zero_is_empty :
  [Sample.tshirt; Sample.yogaMat] <> [] /\
  match_ (fun _ _ => 1%Q) (5 # 100)%Q 1%Q asciiToLowerCase
    (mkQuery (u16 "sports t-shirt") [u16 "sports"; u16 "t-shirt"])
    [Sample.tshirt; Sample.yogaMat] 0 = [].
Proof. split; [discriminate|reflexivity]. Qed.

(** C2, for a caller that asks for at least one result: on a non-empty
    catalog [match] returns at least one result for every query,
    whichever stage produces it, and on an empty catalog it returns the
    empty sequence. *)
Theorem match_never_empty_on_products
    (similarity : Query -> Product -> Q) (tau_semantic uniformScore : Q)
    (toLowerCase : jsstring -> jsstring)
    (q : Query) (catalog : list Product) (topN : nat) :
  0 < topN ->
  (catalog <> [] ->
   match_ similarity tau_semantic uniformScore toLowerCase q catalog topN <> []) /\
  match_ similarity tau_semantic uniformScore toLowerCase q [] topN = [].
Proof.
  intros Hn. split.
  - intros Hc E.
    assert (L : 0 < List.length catalog).
    { destruct catalog; [congruence|simpl; lia]. }
    pose proof (fallbackChain_delivers similarity tau_semantic uniformScore
                  toLowerCase q catalog topN L Hn) as D.
    unfold match_ in E. apply (f_equal (@List.length _)) in E.
    rewrite length_firstn in E. simpl in E. lia.
  - unfold match_. rewrite fallbackChain_empty_catalog. apply firstn_nil.
Qed.

(** A query that shares no word with the catalog, against a similarity
    that finds nothing: the default stage answers with the first product
    by id. *)
Lemma match_never_empty_on_products_witness :
  0 < 1 /\
  match_ (fun _ _ => 0%Q) (5 # 100)%Q 1%Q asciiToLowerCase
    (mkQuery (u16 "zebra") [u16 "zebra"])
    [Sample.yogaMat; Sample.tshirt] 1
  = [mkResult Sample.tshirt 0%Q via_default] /\
  match_ (fun _ _ => 0%Q) (5 # 100)%Q 1%Q asciiToLowerCase
    (mkQuery (u16 "zebra") [u16 "zebra"]) [Sample.yogaMat; Sample.tshirt] 1 <> [].
Proof.
  split; [lia|]. split; [vm_compute; reflexivity|].
  apply (match_never_empty_on_products (fun _ _ => 0%Q) (5 # 100)%Q 1%Q
           asciiToLowerCase (mkQuery (u16 "zebra") [u16 "zebra"])
           [Sample.yogaMat; Sample.tshirt] 1).
  - lia.
  - discriminate.
Defined.

End MatcherFacts.

(* ================================================================== *)
(** * Further properties *)
(* ================================================================== *)

(** ** More on [formatGeminiResponse] *)

(** X1: the third replacement of [formatGeminiResponse] is absorbed by the
    fourth. Replacing line-feed pairs and then single line feeds gives
    what replacing single line feeds gives, so for every string the
    result is that of the bullet pass, the asterisk removal and the
    single line-feed replacement alone. *)
Theorem formatGeminiResponse_without_double_pass (s : jsstring) :
  replaceNewline (replaceDoubleNewline s) = replaceNewline s /\
  formatGeminiResponse (JString s) =
  replaceNewline (removeAsterisks (replaceLeadingStar true s)).
Proof.
  split; [apply replaceDoubleNewline_absorbed_aux|].
  apply formatGeminiResponse_core.
Qed.

Lemma replaceNewline_no_line_feed (s : jsstring) :
  ~ In 10%N (replaceNewline s).
Proof.
  unfold replaceNewline. intros H. apply in_flat_map in H as (c & _ & H).
  destruct (N.eqb c 10) eqn:E.
  - cbn in H. intuition discriminate.
  - destruct H as [H|[]]. subst c. discriminate.
Qed.

(** The result has neither an asterisk nor a line feed. *)
Lemma formatGeminiResponse_output_clean (text : jsvalue) :
  noStar (formatGeminiResponse text) /\
  ~ In 10%N (formatGeminiResponse text).
Proof.
  destruct text as [| |s]; try (split; [constructor|intros []]).
  split.
  - unfold formatGeminiResponse. destruct (falsy s); [constructor|].
    apply replaceNewline_noStar, replaceDoubleNewline_noStar,
      removeAsterisks_noStar.
  - rewrite formatGeminiResponse_core. apply replaceNewline_no_line_feed.
Qed.

Lemma replaceLeadingStar_clean (s : jsstring) :
  noStar s -> forall b, replaceLeadingStar b s = s.
Proof.
  induction 1 as [|c s Hc Hs IH]; intros b; [reflexivity|].
  destruct s as [|d s'].
  - reflexivity.
  - change (replaceLeadingStar b (c :: d :: s')) with
      (if b && N.eqb c 42 && N.eqb d 32
       then (8226 :: 32 :: replaceLeadingStar false s')%N
       else c :: replaceLeadingStar (isLineTerminator c) (d :: s')).
    apply N.eqb_neq in Hc. rewrite Hc, andb_false_r. cbn [andb].
    now rewrite IH.
Qed.

Lemma removeAsterisks_clean (s : jsstring) :
  noStar s -> removeAsterisks s = s.
Proof.
  unfold removeAsterisks. induction 1 as [|c s Hc Hs IH]; [reflexivity|].
  simpl. apply N.eqb_neq in Hc. rewrite Hc. cbn [negb]. now rewrite IH.
Qed.

Lemma formatGeminiResponse_fixes_clean (s : jsstring) :
  noStar s -> ~ In 10%N s -> formatGeminiResponse (JString s) = s.
Proof.
  intros C Hn. rewrite formatGeminiResponse_core.
  rewrite (replaceLeadingStar_clean s C), (removeAsterisks_clean s C).
  now apply replaceNewline_clean.
Qed.

(** X2: a text with no asterisk and no line feed passes through
    [formatGeminiResponse] unchanged, whatever else it contains (markup
    included: nothing is escaped). *)
Theorem formatGeminiResponse_keeps_clean_text (s : jsstring) :
  ~ In 42%N s -> ~ In 10%N s ->
  formatGeminiResponse (JString s) = s.
Proof.
  intros Hs Hn. apply formatGeminiResponse_fixes_clean; [|exact Hn].
  unfold noStar. apply Forall_forall. intros c Hc ->. now apply Hs.
Qed.

Lemma formatGeminiResponse_keeps_clean_text_witness :
  ~ In 42%N (u16 "<img src=x onerror=alert(1)>") /\
  ~ In 10%N (u16 "<img src=x onerror=alert(1)>") /\
  formatGeminiResponse (JString (u16 "<img src=x onerror=alert(1)>"))
  = u16 "<img src=x onerror=alert(1)>".
Proof.
  assert (A : ~ In 42%N (u16 "<img src=x onerror=alert(1)>"))
    by (cbn; intuition discriminate).
  assert (B : ~ In 10%N (u16 "<img src=x onerror=alert(1)>"))
    by (cbn; intuition discriminate).
  split; [exact A|]. split; [exact B|].
  exact (formatGeminiResponse_keeps_clean_text _ A B).
Defined.

(** X3: formatting is idempotent: applying [formatGeminiResponse] to its
    own result changes nothing, and the result has no line feed left. *)
Theorem formatGeminiResponse_idempotent (text : jsvalue) :
  formatGeminiResponse (JString (formatGeminiResponse text))
  = formatGeminiResponse text /\
  ~ In 10%N (formatGeminiResponse text).
Proof.
  destruct (formatGeminiResponse_output_clean text) as [C N].
  split; [|exact N].
  now apply formatGeminiResponse_fixes_clean.
Qed.

(** X4: a bullet for every line. Wherever "* " follows a line terminator
    (line feed, carriage return, U+2028, U+2029) it comes out as the
    bullet U+2022 and a space, placed right after the formatted text up
    to and including that line break. *)
Theorem formatGeminiResponse_bullet_on_every_line
    (a rest : jsstring) (t : N) :
  isLineTerminator t = true ->
  formatGeminiResponse (JString (a ++ t :: 42 :: 32 :: rest)%N) =
  formatGeminiResponse (JString (a ++ [t])) ++
  (8226 :: 32 ::
     replaceNewline (removeAsterisks (replaceLeadingStar false rest)))%N.
Proof.
  intros T. rewrite !formatGeminiResponse_core.
  rewrite (proj1 (replaceLeadingStar_line_break_aux t (42 :: 32 :: rest)%N a T)).
  rewrite removeAsterisks_app, replaceNewline_app. reflexivity.
Qed.

Lemma formatGeminiResponse_bullet_on_every_line_witness :
  isLineTerminator 10 = true /\
  formatGeminiResponse (JString (u16 "Try:" ++ 10 :: 42 :: 32 :: u16 "a *mat*")%N)
  = u16 "Try:<br/>" ++ (8226 :: 32 :: u16 "a mat")%N.
Proof.
  split; [reflexivity|].
  exact (formatGeminiResponse_bullet_on_every_line (u16 "Try:") (u16 "a *mat*")
           10%N eq_refl).
Defined.

(** ** More on [handleSubmit] *)

Section SubmitFacts.

Variable toLowerCase : jsstring -> jsstring.
Variable post : Request -> AxiosResult.
Variable now : nat -> jsstring.
Variable apiStatus : ApiStatus.t.

Local Abbreviation submit := (handleSubmit toLowerCase post now apiStatus).
Local Abbreviation guard := (passesGuard apiStatus).

(** The outcome of a submission past the guard, whatever the backend
    does: only the bot text, the products, the feature tag, the panel
    flag and the console depend on the reply. *)
Lemma handleSubmit_shape (w : World) :
  guard w = true ->
  exists msg ps lf sp con,
    submit w =
    Normal tt
      (mkWorld
         (mkChatState []
            (messages (ui w) ++
               [mkMessage user (JString (query (ui w))) (now (clock w));
                mkMessage bot msg (now (S (clock w)))])
            ps false lf sp (agentMode (ui w)))
         (sent w ++ [route toLowerCase (agentMode (ui w)) (query (ui w))])
         con (S (S (clock w)))).
Proof.
  intros G.
  destruct (post (route toLowerCase (agentMode (ui w)) (query (ui w))))
    as [reason|[d|]] eqn:R.
  - rewrite (handleSubmit_rejected toLowerCase post now apiStatus w reason G R).
    repeat eexists.
  - rewrite (handleSubmit_resolved toLowerCase post now apiStatus w d G R).
    destruct (branchOutcome _ _ d) as [[f v] m]. repeat eexists.
  - rewrite (handleSubmit_null_data toLowerCase post now apiStatus w G R).
    repeat eexists.
Qed.

Lemma route_carries_query (agentMode : bool) (q : jsstring) :
  bodyText (body (route toLowerCase agentMode q)) = q.
Proof.
  unfold route. destruct agentMode; [reflexivity|].
  destruct (classify toLowerCase q); reflexivity.
Qed.

End SubmitFacts.

(** X5: what every submission past the guard does, whatever the backend
    answers (a reply, a reply without data, a rejection). It completes
    normally; the conversation keeps all earlier messages and grows by
    exactly two, the user's text and then one bot message; the input is
    cleared; loading is off; Agent Mode is as it was; exactly one request
    went out, and it carries the query exactly as typed (not lowercased,
    not trimmed). *)
Theorem submission_frame
    (toLowerCase : jsstring -> jsstring) (post : Request -> AxiosResult)
    (now : nat -> jsstring) (apiStatus : ApiStatus.t) (w : World) :
  passesGuard apiStatus w = true ->
  exists w' msg r,
    handleSubmit toLowerCase post now apiStatus w = Normal tt w' /\
    messages (ui w') =
      messages (ui w) ++
        [mkMessage user (JString (query (ui w))) (now (clock w));
         mkMessage bot msg (now (S (clock w)))] /\
    query (ui w') = [] /\
    isLoading (ui w') = false /\
    agentMode (ui w') = agentMode (ui w) /\
    sent w' = sent w ++ [r] /\
    bodyText (body r) = query (ui w).
Proof.
  intros G.
  destruct (handleSubmit_shape toLowerCase post now apiStatus w G)
    as (msg & ps & lf & sp & con & E).
  eexists. exists msg. eexists. split; [exact E|].
  cbn. repeat split; try reflexivity.
  apply route_carries_query.
Qed.

Lemma submission_frame_witness :
  passesGuard ApiStatus.connected (Sample.typed (u16 "  Find Electronics ") false) = true /\
  exists (w' : World) (msg : jsvalue) (r : Request),
    handleSubmit asciiToLowerCase Sample.shop Sample.time ApiStatus.connected
      (Sample.typed (u16 "  Find Electronics ") false) = Normal tt w' /\
    List.length (messages (ui w')) = 2%nat /\
    query (ui w') = [] /\
    sent w' = [r] /\
    bodyText (body r) = u16 "  Find Electronics ".
Proof.
  split; [vm_compute; reflexivity|].
  destruct (submission_frame asciiToLowerCase Sample.shop Sample.time
              ApiStatus.connected (Sample.typed (u16 "  Find Electronics ") false))
    as (w' & msg & r & E & M & Q & _ & _ & S & B).
  - vm_compute. reflexivity.
  - exists w', msg, r. repeat split; try assumption.
    rewrite M. reflexivity.
Defined.

(** X6: on the state a submission leaves behind, [handleSubmit] changes
    nothing and sends nothing: the first run cleared the input (or was
    itself stopped by the guard), so a second run stops at the guard
    until new text is typed. *)
Theorem second_submission_is_stopped
    (toLowerCase : jsstring -> jsstring) (post : Request -> AxiosResult)
    (now : nat -> jsstring) (apiStatus : ApiStatus.t) (w : World) :
  handleSubmit toLowerCase post now apiStatus
    (finalWorld (handleSubmit toLowerCase post now apiStatus w))
  = Normal tt (finalWorld (handleSubmit toLowerCase post now apiStatus w)).
Proof.
  destruct (passesGuard apiStatus w) eqn:G.
  - destruct (handleSubmit_shape toLowerCase post now apiStatus w G)
      as (msg & ps & lf & sp & con & E).
    rewrite E. reflexivity.
  - rewrite (handleSubmit_guard_rejects toLowerCase post now apiStatus w G).
    cbn [finalWorld].
    apply (handleSubmit_guard_rejects toLowerCase post now apiStatus w G).
Qed.

(** X7: a reply whose [data] is [null] is absorbed like a rejection. The
    property read throws inside the [try]; the handler completes
    normally, appends the user's message and the one apology, logs the
    TypeError, leaves products, panel flag and feature tag as they were
    and switches loading off. *)
Theorem null_data_is_absorbed
    (toLowerCase : jsstring -> jsstring) (post : Request -> AxiosResult)
    (now : nat -> jsstring) (apiStatus : ApiStatus.t) (w : World) :
  passesGuard apiStatus w = true ->
  post (route toLowerCase (agentMode (ui w)) (query (ui w))) = Resolved None ->
  exists w',
    handleSubmit toLowerCase post now apiStatus w = Normal tt w' /\
    messages (ui w') =
      messages (ui w) ++
        [mkMessage user (JString (query (ui w))) (now (clock w));
         mkMessage bot (JString apologyText) (now (S (clock w)))] /\
    products (ui w') = products (ui w) /\
    showProducts (ui w') = showProducts (ui w) /\
    lastFeature (ui w') = lastFeature (ui w) /\
    isLoading (ui w') = false /\
    console w' = console w ++ [TypeError].
Proof.
  intros G R. eexists. split.
  - apply (handleSubmit_null_data toLowerCase post now apiStatus w G R).
  - cbn. repeat split; reflexivity.
Qed.

Lemma null_data_is_absorbed_witness :
  passesGuard ApiStatus.connected (Sample.typed (u16 "hello") true) = true /\
  exists w',
    handleSubmit asciiToLowerCase (fun _ => Resolved None) Sample.time
      ApiStatus.connected (Sample.typed (u16 "hello") true) = Normal tt w' /\
    products (ui w') = [Sample.tshirt] /\
    console w' = [TypeError].
Proof.
  split; [vm_compute; reflexivity|].
  destruct (null_data_is_absorbed asciiToLowerCase (fun _ => Resolved None)
              Sample.time ApiStatus.connected (Sample.typed (u16 "hello") true))
    as (w' & E & _ & P & _ & _ & _ & C).
  - vm_compute. reflexivity.
  - reflexivity.
  - exists w'. repeat split; assumption.
Defined.

(** ** The product panel, the keyboard, the suggestions, the toggle *)

(** X8: the product panel follows the reply. After a submission whose
    request resolved with data, [ProductsDisplay] renders exactly when
    the reply carries at least one product, on every route: the image
    and text routes set [showProducts] regardless, but the panel returns
    [null] on an empty list. When it renders, its cards are the reply's
    products and its heading is that of the route's feature tag. *)
Theorem panel_follows_reply
    (toLowerCase : jsstring -> jsstring) (post : Request -> AxiosResult)
    (now : nat -> jsstring) (apiStatus : ApiStatus.t) (w : World)
    (d : ResponseData) :
  passesGuard apiStatus w = true ->
  post (route toLowerCase (agentMode (ui w)) (query (ui w))) = Resolved (Some d) ->
  panelOf (ui (finalWorld (handleSubmit toLowerCase post now apiStatus w))) =
  if hasProducts d
  then Some (mkPanel
               (panelHeading
                  (Some (fst (fst (branchOutcome (agentMode (ui w))
                                     (classify toLowerCase (query (ui w))) d)))))
               (productsOrEmpty d))
  else None.
Proof.
  intros G R.
  rewrite (handleSubmit_resolved toLowerCase post now apiStatus w d G R).
  unfold branchOutcome, panelOf, ProductsDisplay, hasProducts, productsOrEmpty.
  destruct (agentMode (ui w)); [|destruct (classify toLowerCase (query (ui w)))];
    cbn; destruct (data_products d) as [[|p ps]|]; reflexivity.
Qed.

Lemma panel_follows_reply_witness :
  passesGuard ApiStatus.connected (Sample.typed (u16 "Find electronics") false) = true /\
  panelOf (ui (finalWorld (handleSubmit asciiToLowerCase
      (fun _ => Resolved (Some (mkData JUndefined (Some [])))) Sample.time
      ApiStatus.connected (Sample.typed (u16 "Find electronics") false))))
  = None /\
  showProducts (ui (finalWorld (handleSubmit asciiToLowerCase
      (fun _ => Resolved (Some (mkData JUndefined (Some [])))) Sample.time
      ApiStatus.connected (Sample.typed (u16 "Find electronics") false))))
  = true.
Proof.
  split; [vm_compute; reflexivity|].
  split; [|vm_compute; reflexivity].
  exact (panel_follows_reply asciiToLowerCase
           (fun _ => Resolved (Some (mkData JUndefined (Some [])))) Sample.time
           ApiStatus.connected (Sample.typed (u16 "Find electronics") false)
           (mkData JUndefined (Some [])) eq_refl eq_refl).
Defined.

(** X9: in Agent Mode the product panel has no heading. A submission
    in Agent Mode whose reply carries products tags the state 'agent',
    and [ProductsDisplay] has a heading for 'image', 'text' and 'chat'
    only: the panel shows the reply's products under an empty heading. *)
Theorem agent_panel_has_no_heading
    (toLowerCase : jsstring -> jsstring) (post : Request -> AxiosResult)
    (now : nat -> jsstring) (apiStatus : ApiStatus.t) (w : World)
    (d : ResponseData) :
  passesGuard apiStatus w = true ->
  agentMode (ui w) = true ->
  post (agentRequest (query (ui w))) = Resolved (Some d) ->
  hasProducts d = true ->
  panelOf (ui (finalWorld (handleSubmit toLowerCase post now apiStatus w)))
  = Some (mkPanel [] (productsOrEmpty d)).
Proof.
  intros G A R H.
  assert (E := handleSubmit_resolved toLowerCase post now apiStatus w d G).
  unfold route, branchOutcome in E. rewrite A in E. rewrite (E R).
  unfold panelOf, ProductsDisplay, hasProducts, productsOrEmpty in *.
  cbn. destruct (data_products d) as [[|p ps]|]; try discriminate.
  reflexivity.
Qed.

Lemma agent_panel_has_no_heading_witness :
  passesGuard ApiStatus.connected (Sample.typed (u16 "yoga") true) = true /\
  panelOf (ui (finalWorld (handleSubmit asciiToLowerCase
      (fun _ => Resolved (Some (mkData (JString (u16 "A mat")) (Some [Sample.yogaMat]))))
      Sample.time ApiStatus.connected (Sample.typed (u16 "yoga") true))))
  = Some (mkPanel [] [Sample.yogaMat]).
Proof.
  split; [vm_compute; reflexivity|].
  exact (agent_panel_has_no_heading asciiToLowerCase
           (fun _ => Resolved (Some (mkData (JString (u16 "A mat")) (Some [Sample.yogaMat]))))
           Sample.time ApiStatus.connected (Sample.typed (u16 "yoga") true)
           (mkData (JString (u16 "A mat")) (Some [Sample.yogaMat]))
           eq_refl eq_refl eq_refl eq_refl).
Defined.

Lemma sendDisabled_guard (apiStatus : ApiStatus.t) (w : World) :
  sendDisabled apiStatus (isLoading (ui w)) (query (ui w))
  = negb (passesGuard apiStatus w).
Proof.
  unfold sendDisabled, passesGuard.
  destruct (falsy _), (isLoading _), (ApiStatus.is_connected _); reflexivity.
Qed.

(** X10: the Send button and the Enter key agree. The button is disabled
    exactly when the guard of [handleSubmit] would stop the submission;
    so pressing Enter while the button is disabled changes nothing, and
    any key press other than Enter without Shift changes nothing
    either. *)
Theorem enter_key_respects_disabled_button
    (toLowerCase : jsstring -> jsstring) (post : Request -> AxiosResult)
    (now : nat -> jsstring) (apiStatus : ApiStatus.t) (w : World)
    (e : KeyboardEvent) :
  sendDisabled apiStatus (isLoading (ui w)) (query (ui w))
    = negb (passesGuard apiStatus w) /\
  (sendDisabled apiStatus (isLoading (ui w)) (query (ui w)) = true ->
   handleKeyPress toLowerCase post now apiStatus e w = Normal tt w) /\
  (strictEquals (key e) (u16 "Enter") && negb (shiftKey e) = false ->
   handleKeyPress toLowerCase post now apiStatus e w = Normal tt w) /\
  (strictEquals (key e) (u16 "Enter") && negb (shiftKey e) = true ->
   handleKeyPress toLowerCase post now apiStatus e w
   = handleSubmit toLowerCase post now apiStatus w).
Proof.
  split; [apply sendDisabled_guard|].
  unfold handleKeyPress. repeat split.
  - intros D. rewrite sendDisabled_guard in D. apply negb_true_iff in D.
    destruct (_ && _); [|reflexivity].
    now apply handleSubmit_guard_rejects.
  - now intros ->.
  - now intros ->.
Qed.

(** X11: toggling Agent Mode redirects the next submission. After the
    checkbox of the chat header is clicked, a submission that passes the
    guard goes to the agent endpoint if Agent Mode was off, and to the
    endpoint the rule chain picks if it was on; the toggle itself sends
    nothing and leaves the conversation as it is. *)
Theorem agent_toggle_redirects_next_submission
    (toLowerCase : jsstring -> jsstring) (post : Request -> AxiosResult)
    (now : nat -> jsstring) (apiStatus : ApiStatus.t) (w : World) :
  passesGuard apiStatus w = true ->
  sent (finalWorld (toggleAgentMode w)) = sent w /\
  messages (ui (finalWorld (toggleAgentMode w))) = messages (ui w) /\
  sent (finalWorld (handleSubmit toLowerCase post now apiStatus
                      (finalWorld (toggleAgentMode w))))
  = sent w ++
    [if agentMode (ui w)
     then requestFor (classify toLowerCase (query (ui w))) (query (ui w))
     else agentRequest (query (ui w))].
Proof.
  intros G. split; [reflexivity|]. split; [reflexivity|].
  rewrite handleSubmit_sends_route by exact G.
  unfold route. cbn. destruct (agentMode (ui w)); reflexivity.
Qed.

Lemma agent_toggle_redirects_next_submission_witness :
  passesGuard ApiStatus.connected (Sample.typed (u16 "Find electronics") false) = true /\
  sent (finalWorld (handleSubmit asciiToLowerCase Sample.shop Sample.time
          ApiStatus.connected
          (finalWorld (toggleAgentMode (Sample.typed (u16 "Find electronics") false)))))
  = [mkRequest api_agent_chat (QueryBody (u16 "Find electronics"))].
Proof.
  split; [vm_compute; reflexivity|].
  apply (agent_toggle_redirects_next_submission asciiToLowerCase Sample.shop
           Sample.time ApiStatus.connected
           (Sample.typed (u16 "Find electronics") false)).
  vm_compute. reflexivity.
Defined.

Lemma click_then_submit
    (toLowerCase : jsstring -> jsstring) (post : Request -> AxiosResult)
    (now : nat -> jsstring) (apiStatus : ApiStatus.t) (w : World)
    (suggestion : jsstring) :
  falsy (trim suggestion) = false ->
  isLoading (ui w) = false ->
  ApiStatus.is_connected apiStatus = true ->
  sent (finalWorld (handleSubmit toLowerCase post now apiStatus
                      (finalWorld (clickSuggestion suggestion w))))
  = sent w ++ [route toLowerCase (agentMode (ui w)) suggestion].
Proof.
  intros T L C.
  rewrite handleSubmit_sends_route; [reflexivity|].
  unfold passesGuard, clickSuggestion, setQuery, updateState.
  cbn [finalWorld ui query isLoading]. now rewrite T, L, C.
Qed.

(** X12: where the quick suggestions go. Clicked and then submitted
    outside Agent Mode (connected, nothing in flight), each of the three
    text-based suggestions is posted to the recommend endpoint; of the
    three suggestions labelled image-based, the first and the third are
    posted to the image-search endpoint, but 'Black running shoes' has
    no image trigger and is posted to the chat endpoint. *)
Theorem suggestion_routes
    (post : Request -> AxiosResult) (now : nat -> jsstring) (w : World) :
  isLoading (ui w) = false ->
  agentMode (ui w) = false ->
  (forall s, In s textSuggestions ->
     sent (finalWorld (handleSubmit asciiToLowerCase post now ApiStatus.connected
                         (finalWorld (clickSuggestion s w))))
     = sent w ++ [mkRequest api_recommend (QueryBody s)]) /\
  map (fun s =>
         sent (finalWorld (handleSubmit asciiToLowerCase post now
                             ApiStatus.connected
                             (finalWorld (clickSuggestion s w)))))
      imageSuggestions
  = [sent w ++ [mkRequest api_image_search
                  (DescriptionBody (u16 "A blue sports t-shirt"))];
     sent w ++ [mkRequest api_chat (QueryBody (u16 "Black running shoes"))];
     sent w ++ [mkRequest api_image_search
                  (DescriptionBody (u16 "A picture of wireless headphones"))]].
Proof.
  intros L A. split.
  - intros s [<-|[<-|[<-|[]]]];
      rewrite click_then_submit by (try assumption; reflexivity);
      rewrite A; reflexivity.
  - unfold imageSuggestions. cbn [map].
    rewrite !click_then_submit by (try assumption; reflexivity).
    rewrite A. reflexivity.
Qed.

Lemma suggestion_routes_witness :
  isLoading (ui (Sample.typed [] false)) = false /\
  agentMode (ui (Sample.typed [] false)) = false /\
  sent (finalWorld (handleSubmit asciiToLowerCase Sample.shop Sample.time
          ApiStatus.connected
          (finalWorld (clickSuggestion (u16 "Show me t-shirts")
                         (Sample.typed [] false)))))
  = [mkRequest api_recommend (QueryBody (u16 "Show me t-shirts"))].
Proof.
  split; [reflexivity|]. split; [reflexivity|].
  apply (proj1 (suggestion_routes Sample.shop Sample.time
                  (Sample.typed [] false) eq_refl eq_refl)
           (u16 "Show me t-shirts")).
  right. left. reflexivity.
Defined.

(** X13: the health check gates the chat. Whatever the [fetch] of
    [checkApiHealth] does, afterwards the initialising screen is gone and
    the status is 'connected' exactly when the fetch resolved with
    [ok]; the header then reads 'Connected' and otherwise 'Disconnected'
    with the error banner shown, never 'Checking...'. When the check did
    not come back [ok], no submission in [ChatInterface] sends anything:
    [handleSubmit] leaves every state unchanged. *)
Theorem health_check_gates_chat
    (r : App.FetchResult) (s : App.State)
    (toLowerCase : jsstring -> jsstring) (post : Request -> AxiosResult)
    (now : nat -> jsstring) :
  App.isLoading (App.checkApiHealth r s) = false /\
  (App.apiStatus (App.checkApiHealth r s) = ApiStatus.connected
   <-> r = App.FetchResolved true) /\
  App.render (App.checkApiHealth r s) =
    (match r with
     | App.FetchResolved true =>
         App.Page (u16 "Connected") false ApiStatus.connected
     | _ => App.Page (u16 "Disconnected") true ApiStatus.error
     end) /\
  (r <> App.FetchResolved true ->
   forall w, handleSubmit toLowerCase post now
               (App.apiStatus (App.checkApiHealth r s)) w = Normal tt w).
Proof.
  destruct r as [reason|[|]]; cbn; repeat split;
    try discriminate; try congruence; try reflexivity.
  - intros _ w. apply handleSubmit_guard_rejects.
    unfold passesGuard. cbn. now rewrite andb_false_r.
  - intros _ w. apply handleSubmit_guard_rejects.
    unfold passesGuard. cbn. now rewrite andb_false_r.
Qed.

(** ** [handleImageUpload] and [handleDrop] *)

Ltac run_upload :=
  unfold handleImageUpload, pageTryCatchFinally, agentUploadBranch,
    plainUploadBranch, uploadCatch, uploadPost, liftAction, pageBind, pageRet,
    appendBot, bind, dataOf, newDate, setMessages, setIsLoading, setProducts,
    setLastFeature, setShowProducts, consoleError, updateState, ret, throw;
  cbn [world calls isDragActive ui sent console clock query messages products
       isLoading lastFeature showProducts agentMode finalPage nth_error].

(** The upload goes ahead for a page: nothing in flight and connected. *)
Lemma upload_guard_split (apiStatus : ApiStatus.t) (p : Page) :
  isLoading (ui (world p)) = false ->
  ApiStatus.is_connected apiStatus = true ->
  isLoading (ui (world p)) || negb (ApiStatus.is_connected apiStatus) = false.
Proof. now intros -> ->. Qed.

Section UploadFacts.

Variable upload : UploadCall -> AxiosResult.
Variable now : nat -> jsstring.
Variable apiStatus : ApiStatus.t.

Local Abbreviation uploadFiles := (handleImageUpload upload now apiStatus).

(** The page a started upload leaves behind, given the bot text, the
    products, the feature tag, the panel flag, the console and the
    requests it ends with. *)
Lemma handleImageUpload_shape (p : Page) (file : File.t) (rest : list File.t) :
  isLoading (ui (world p)) = false ->
  ApiStatus.is_connected apiStatus = true ->
  exists msg ps lf sp con cs,
    uploadFiles (file :: rest) p =
    Done tt
      (mkPage
         (mkWorld
            (mkChatState (query (ui (world p)))
               (messages (ui (world p)) ++
                  [mkMessage user (JString (uploadedText file))
                     (now (clock (world p)));
                   mkMessage bot msg (now (S (clock (world p))))])
               ps false lf sp (agentMode (ui (world p))))
            (sent (world p)) con (S (S (clock (world p)))))
         (calls p ++ cs) (isDragActive p)) /\
    (cs = [PostImageUpload file] \/
     cs = [PostAgentImage file uploadPrompt] \/
     exists q, cs = [PostAgentImage file uploadPrompt; PostChat q]).
Proof.
  intros L C. run_upload. rewrite L, C. cbn [orb negb].
  destruct (agentMode (ui (world p))).
  - destruct (upload (PostAgentImage file uploadPrompt)) as [r1|[a|]];
      run_upload; rewrite <- ?app_assoc.
    + repeat eexists; auto.
    + destruct (upload (PostChat (response a))) as [r2|[c|]];
        run_upload; rewrite <- ?app_assoc; cbn [app];
        repeat eexists; right; right; eexists; reflexivity.
    + repeat eexists; auto.
  - destruct (upload (PostImageUpload file)) as [r1|[d|]];
      run_upload; rewrite <- ?app_assoc; repeat eexists; auto.
Qed.

End UploadFacts.

(** X14: when an upload does nothing. With no file in the event, with a
    request in flight, or without a connection, [handleImageUpload]
    returns at once and the page is as before: no request, no message.
    In particular a file that arrives while the file input is disabled
    (by drag and drop) is ignored by the handler itself. *)
Theorem upload_guard_stops
    (upload : UploadCall -> AxiosResult) (now : nat -> jsstring)
    (apiStatus : ApiStatus.t) (files : list File.t) (p : Page) :
  files = [] \/
  inputDisabled apiStatus (isLoading (ui (world p))) = true ->
  handleImageUpload upload now apiStatus files p = Done tt p.
Proof.
  unfold handleImageUpload, inputDisabled. intros [->|D]; [reflexivity|].
  destruct files as [|file rest]; [reflexivity|].
  cbn [nth_error]. now rewrite D.
Qed.

Lemma upload_guard_stops_witness :
  inputDisabled ApiStatus.error
    (isLoading (ui (world (mkPage (Sample.typed [] false) [] true)))) = true /\
  handleImageUpload (fun _ => Resolved None) Sample.time ApiStatus.error
    [File.mk (u16 "shoe.png") []] (mkPage (Sample.typed [] false) [] true)
  = Done tt (mkPage (Sample.typed [] false) [] true).
Proof.
  split; [reflexivity|].
  apply (upload_guard_stops (fun _ => Resolved None) Sample.time ApiStatus.error
           [File.mk (u16 "shoe.png") []] (mkPage (Sample.typed [] false) [] true)).
  right. reflexivity.
Defined.



(** X16: an image upload in Agent Mode that succeeds. The image goes to
    the agent endpoint with the fixed prompt; the chat endpoint is then
    asked with the agent's [response] as the query; the products shown
    are those of the chat reply, under the image heading (the feature
    tag is 'image', not 'agent') and only if there are any; the bot
    message is the Agent Mode (Image) header, the formatted agent
    response and the count sentence for the chat reply. *)
Theorem agent_upload_chains_two_requests
    (upload : UploadCall -> AxiosResult) (now : nat -> jsstring)
    (apiStatus : ApiStatus.t) (p : Page) (file : File.t) (rest : list File.t)
    (a c : ResponseData) :
  isLoading (ui (world p)) = false ->
  ApiStatus.is_connected apiStatus = true ->
  agentMode (ui (world p)) = true ->
  upload (PostAgentImage file (u16 "What products do you see?")) = Resolved (Some a) ->
  upload (PostChat (response a)) = Resolved (Some c) ->
  exists p',
    handleImageUpload upload now apiStatus (file :: rest) p = Done tt p' /\
    calls p' = calls p ++
      [PostAgentImage file (u16 "What products do you see?"); PostChat (response a)] /\
    products (ui (world p')) = productsOrEmpty c /\
    lastFeature (ui (world p')) = Some image /\
    showProducts (ui (world p')) = true /\
    panelOf (ui (world p')) =
      (if hasProducts c
       then Some (mkPanel (panelHeading (Some image)) (productsOrEmpty c))
       else None) /\
    messages (ui (world p')) =
      messages (ui (world p)) ++
        [mkMessage user (JString (uploadedText file)) (now (clock (world p)));
         mkMessage bot
           (JString (agentImageHeader ++ formatGeminiResponse (response a)
                       ++ frameHeader ++ uploadCountText c))
           (now (S (clock (world p))))].
Proof.
  intros L C A R1 R2. change (u16 "What products do you see?") with uploadPrompt in *.
  run_upload. rewrite L, C, A. cbn [orb negb]. run_upload.
  rewrite R1. run_upload. rewrite R2. run_upload.
  eexists. split; [reflexivity|].
  cbn [world calls ui products lastFeature showProducts messages].
  rewrite <- !app_assoc. repeat split; try reflexivity.
  unfold panelOf, ProductsDisplay, hasProducts, productsOrEmpty. cbn.
  destruct (data_products c) as [[|x xs]|]; reflexivity.
Qed.

Lemma agent_upload_chains_two_requests_witness :
  isLoading (ui (world (mkPage (Sample.typed [] true) [] false))) = false /\
  exists p',
    handleImageUpload
      (fun k => match k with
                | PostChat _ => Resolved (Some (mkData JUndefined (Some [Sample.yogaMat])))
                | _ => Resolved (Some (mkData (JString (u16 "* a mat")) None))
                end)
      Sample.time ApiStatus.connected [File.mk (u16 "mat.png") []]
      (mkPage (Sample.typed [] true) [] false) = Done tt p' /\
    calls p' = [] ++ [PostAgentImage (File.mk (u16 "mat.png") [])
                        (u16 "What products do you see?");
                      PostChat (JString (u16 "* a mat"))] /\
    products (ui (world p')) = [Sample.yogaMat].
Proof.
  split; [reflexivity|].
  destruct (agent_upload_chains_two_requests
              (fun k => match k with
                | PostChat _ => Resolved (Some (mkData JUndefined (Some [Sample.yogaMat])))
                | _ => Resolved (Some (mkData (JString (u16 "* a mat")) None))
                end)
              Sample.time ApiStatus.connected
              (mkPage (Sample.typed [] true) [] false)
              (File.mk (u16 "mat.png") []) []
              (mkData (JString (u16 "* a mat")) None)
              (mkData JUndefined (Some [Sample.yogaMat]))
              eq_refl eq_refl eq_refl eq_refl eq_refl)
    as (p' & E & K & P & _).
  exists p'. repeat split; assumption.
Defined.

(** X17: a first upload request that fails ends the upload. When the
    first request is rejected (to the agent endpoint in Agent Mode, to
    the upload endpoint otherwise), it is the only request: in Agent Mode
    the chat endpoint is never asked. The handler completes normally,
    appends the upload line and the one apology, logs the error, and
    leaves products, panel flag and feature tag as they were. *)
Theorem upload_rejection_is_absorbed
    (upload : UploadCall -> AxiosResult) (now : nat -> jsstring)
    (apiStatus : ApiStatus.t) (p : Page) (file : File.t) (rest : list File.t)
    (reason : jsstring) :
  isLoading (ui (world p)) = false ->
  ApiStatus.is_connected apiStatus = true ->
  upload (if agentMode (ui (world p))
          then PostAgentImage file (u16 "What products do you see?")
          else PostImageUpload file) = Rejected reason ->
  exists p',
    handleImageUpload upload now apiStatus (file :: rest) p = Done tt p' /\
    calls p' = calls p ++
      [if agentMode (ui (world p))
       then PostAgentImage file (u16 "What products do you see?")
       else PostImageUpload file] /\
    messages (ui (world p')) =
      messages (ui (world p)) ++
        [mkMessage user (JString (uploadedText file)) (now (clock (world p)));
         mkMessage bot
           (JString (u16 "Sorry, there was a problem processing your image."))
           (now (S (clock (world p))))] /\
    products (ui (world p')) = products (ui (world p)) /\
    showProducts (ui (world p')) = showProducts (ui (world p)) /\
    lastFeature (ui (world p')) = lastFeature (ui (world p)) /\
    isLoading (ui (world p')) = false /\
    console (world p') = console (world p) ++ [AxiosError reason].
Proof.
  intros L C R. change (u16 "What products do you see?") with uploadPrompt in *.
  run_upload. rewrite L, C. cbn [orb negb].
  destruct (agentMode (ui (world p))); run_upload; rewrite R; run_upload;
    (eexists; split; [reflexivity|]);
    cbn [world calls ui products lastFeature showProducts messages isLoading console];
    rewrite <- !app_assoc; repeat split; reflexivity.
Qed.

Lemma upload_rejection_is_absorbed_witness :
  isLoading (ui (world (mkPage (Sample.typed [] true) [] false))) = false /\
  exists p',
    handleImageUpload (fun _ => Rejected (u16 "Network Error")) Sample.time
      ApiStatus.connected [File.mk (u16 "mat.png") []]
      (mkPage (Sample.typed [] true) [] false) = Done tt p' /\
    calls p' = [] ++ [PostAgentImage (File.mk (u16 "mat.png") [])
                        (u16 "What products do you see?")] /\
    products (ui (world p')) = [Sample.tshirt].
Proof.
  split; [reflexivity|].
  destruct (upload_rejection_is_absorbed
              (fun _ => Rejected (u16 "Network Error")) Sample.time
              ApiStatus.connected (mkPage (Sample.typed [] true) [] false)
              (File.mk (u16 "mat.png") []) [] (u16 "Network Error")
              eq_refl eq_refl eq_refl)
    as (p' & E & K & _ & P & _).
  exists p'. repeat split; assumption.
Defined.

(** X18: in Agent Mode, a chat request that fails loses the agent's
    answer. When the agent endpoint has answered an uploaded image and
    the follow-up chat request is rejected, both requests have gone out,
    yet the only bot message is the apology: the agent's response is not
    shown, and the products stay as they were. *)
Theorem agent_upload_chat_failure_drops_answer
    (upload : UploadCall -> AxiosResult) (now : nat -> jsstring)
    (apiStatus : ApiStatus.t) (p : Page) (file : File.t) (rest : list File.t)
    (a : ResponseData) (reason : jsstring) :
  isLoading (ui (world p)) = false ->
  ApiStatus.is_connected apiStatus = true ->
  agentMode (ui (world p)) = true ->
  upload (PostAgentImage file (u16 "What products do you see?")) = Resolved (Some a) ->
  upload (PostChat (response a)) = Rejected reason ->
  exists p',
    handleImageUpload upload now apiStatus (file :: rest) p = Done tt p' /\
    calls p' = calls p ++
      [PostAgentImage file (u16 "What products do you see?"); PostChat (response a)] /\
    messages (ui (world p')) =
      messages (ui (world p)) ++
        [mkMessage user (JString (uploadedText file)) (now (clock (world p)));
         mkMessage bot (JString uploadApologyText) (now (S (clock (world p))))] /\
    products (ui (world p')) = products (ui (world p)) /\
    lastFeature (ui (world p')) = lastFeature (ui (world p)) /\
    isLoading (ui (world p')) = false.
Proof.
  intros L C A R1 R2. change (u16 "What products do you see?") with uploadPrompt in *.
  run_upload. rewrite L, C, A. cbn [orb negb]. run_upload.
  rewrite R1. run_upload. rewrite R2. run_upload.
  eexists. split; [reflexivity|].
  cbn [world calls ui products lastFeature showProducts messages isLoading].
  rewrite <- !app_assoc. repeat split; reflexivity.
Qed.

Lemma agent_upload_chat_failure_drops_answer_witness :
  isLoading (ui (world (mkPage (Sample.typed [] true) [] false))) = false /\
  exists p',
    handleImageUpload
      (fun k => match k with
                | PostChat _ => Rejected (u16 "timeout")
                | _ => Resolved (Some (mkData (JString (u16 "A yoga mat")) None))
                end)
      Sample.time ApiStatus.connected [File.mk (u16 "mat.png") []]
      (mkPage (Sample.typed [] true) [] false) = Done tt p' /\
    messages (ui (world p')) =
      [] ++ [mkMessage user (JString (uploadedText (File.mk (u16 "mat.png") [])))
               (Sample.time 0);
             mkMessage bot (JString uploadApologyText) (Sample.time 1)].
Proof.
  split; [reflexivity|].
  destruct (agent_upload_chat_failure_drops_answer
              (fun k => match k with
                | PostChat _ => Rejected (u16 "timeout")
                | _ => Resolved (Some (mkData (JString (u16 "A yoga mat")) None))
                end)
              Sample.time ApiStatus.connected
              (mkPage (Sample.typed [] true) [] false)
              (File.mk (u16 "mat.png") []) []
              (mkData (JString (u16 "A yoga mat")) None) (u16 "timeout")
              eq_refl eq_refl eq_refl eq_refl eq_refl)
    as (p' & E & _ & M & _).
  exists p'. split; assumption.
Defined.

(** X19: what a drop does. [handleDrop] always clears the drag flag; it
    hands the first dropped file, and only that one, to
    [handleImageUpload]; with no files in the event the flag is all that
    changes; and while a request is in flight or the connection is down
    a drop uploads nothing. *)
Theorem drop_uploads_first_file_only
    (upload : UploadCall -> AxiosResult) (now : nat -> jsstring)
    (apiStatus : ApiStatus.t) (p : Page) :
  (forall file more,
     handleDrop upload now apiStatus (Some (file :: more)) p
     = handleImageUpload upload now apiStatus [file]
         (mkPage (world p) (calls p) false)) /\
  handleDrop upload now apiStatus None p
    = Done tt (mkPage (world p) (calls p) false) /\
  handleDrop upload now apiStatus (Some []) p
    = Done tt (mkPage (world p) (calls p) false) /\
  (forall files, isDragActive (finalPage (handleDrop upload now apiStatus files p)) = false) /\
  (inputDisabled apiStatus (isLoading (ui (world p))) = true ->
   forall files, handleDrop upload now apiStatus files p
                 = Done tt (mkPage (world p) (calls p) false)).
Proof.
  assert (Stop : inputDisabled apiStatus (isLoading (ui (world p))) = true ->
            forall files, handleDrop upload now apiStatus files p
                          = Done tt (mkPage (world p) (calls p) false)).
  { intros D [[|file more]|]; try reflexivity.
    unfold handleDrop, pageBind, setIsDragActive, handleImageUpload.
    cbn [world nth_error]. unfold inputDisabled in D. now rewrite D. }
  repeat split; try reflexivity; [|exact Stop].
  intros [[|file more]|]; try reflexivity.
  destruct (inputDisabled apiStatus (isLoading (ui (world p)))) eqn:D.
  - now rewrite (Stop eq_refl).
  - unfold inputDisabled in D. apply orb_false_iff in D as [L C].
    apply negb_false_iff in C.
    unfold handleDrop, pageBind, setIsDragActive.
    destruct (handleImageUpload_shape upload now apiStatus
                (mkPage (world p) (calls p) false) file [] L C)
      as (msg & ps & lf & sp & con & cs & E & _).
    rewrite E. reflexivity.
Qed.
